(** * Free-pdf-editor: the PDF engine (app/pdf_engine.py)

    A shallow embedding of [PdfEngine.merge_pdfs], [PdfEngine.split_pdf] and
    [PdfEngine.pdf_to_docx].  The three methods are straight-line Python with
    [try]/[except]/[finally] and [with] blocks around calls into [os.path],
    PyMuPDF ([fitz]) and pdf2docx.  They are embedded as computations over an
    explicit world (file system, open engine handles, log of file-system
    calls); an exception leaves the world as it was when it was raised.

    The callers of the engine in app/ui.py (the list of the merge page, the
    three buttons and the preview of the split page) and the two dialogs of
    app/utils.py are embedded over the same world, extended with the list,
    the previews and the dialogs shown. *)

From Stdlib Require Import ZArith String Ascii.
From stdpp Require Import gmap strings list pretty.

(** ** Python exceptions *)

(** The built-in classes the engine raises itself, and the classes of the
    wrapped libraries (named by their qualified name). *)
Inductive pyclass :=
  | ValueError
  | FileNotFoundError
  | RuntimeError
  | ForeignError (qualname : string).

(** An exception object: its class, its single message argument and the
    [__cause__] set by [raise ... from exc]. *)
Inductive exn :=
  | Exn (cls : pyclass) (msg : string)
  | ExnFrom (cls : pyclass) (msg : string) (cause : exn).

Definition exn_class (e : exn) : pyclass :=
  match e with Exn c _ | ExnFrom c _ _ => c end.

Definition exn_cause (e : exn) : option exn :=
  match e with Exn _ _ => None | ExnFrom _ _ c => Some c end.

(** [str(exc)] of an exception built from one string argument. *)
Definition str (e : exn) : string :=
  match e with Exn _ m | ExnFrom _ m _ => m end.

Global Instance pyclass_eq_dec : EqDecision pyclass.
Proof. solve_decision. Defined.

(** ** The world the engine runs in *)

Definition page := string.

Inductive content :=
  | PdfData (pages : list page)
  | DocxData (pages : list page)
  | RawData (bytes : string).

Inductive node :=
  | Directory
  | RegularFile (c : content).

Global Instance content_eq_dec : EqDecision content.
Proof. solve_decision. Defined.
Global Instance node_eq_dec : EqDecision node.
Proof. solve_decision. Defined.

(** What an open engine handle holds: a [fitz.Document] with its pages, or
    a pdf2docx [Converter] with the pages of the PDF it has opened. *)
Inductive resource :=
  | Document (pages : list page)
  | PdfConverter (pages : list page).

(** File-system calls, logged in the order they are made. *)
Inductive event :=
  | QueryExists (path : string)
  | QueryIsDir (path : string)
  | OpenFile (path : string)
  | WriteFile (path : string).

Global Instance event_eq_dec : EqDecision event.
Proof. solve_decision. Defined.

Record world := World {
  fs : gmap string node;
  heap : gmap nat resource;
  trace : list event }.

Definition is_write (ev : event) : bool :=
  match ev with WriteFile _ => true | _ => false end.

(** ** Computations that may raise *)

Inductive result (A : Type) :=
  | Ok (a : A)
  | Raise (e : exn).
Arguments Ok {A} a.
Arguments Raise {A} e.

Definition M (A : Type) : Type := world → world * result A.

Global Instance M_ret : MRet M := λ A a w, (w, Ok a).
Global Instance M_bind : MBind M := λ A B f m w,
  match m w with
  | (w', Ok a) => f a w'
  | (w', Raise e) => (w', Raise e)
  end.

Definition raise {A} (e : exn) : M A := λ w, (w, Raise e).

(** [try: body / except Exception as exc: handler exc]. *)
Definition try_except {A} (body : M A) (handler : exn → M A) : M A := λ w,
  match body w with
  | (w', Ok a) => (w', Ok a)
  | (w', Raise exc) => handler exc w'
  end.

(** [try: body / finally: cleanup]: the cleanup always runs, and an
    exception raised by it replaces the outcome of the body. *)
Definition try_finally {A} (body : M A) (cleanup : M unit) : M A := λ w,
  match body w with
  | (w1, r) =>
      match cleanup w1 with
      | (w2, Ok _) => (w2, r)
      | (w2, Raise e) => (w2, Raise e)
      end
  end.

Definition log (ev : event) (w : world) : world :=
  World (fs w) (heap w) (trace w ++ [ev]).

(** ** The platform: os.path and the two wrapped libraries *)

(** How a write by a wrapped library ends: the file is written whole, the
    library raises without touching the target, or it raises part-way and
    leaves [debris] at the target. *)
Inductive write_outcome :=
  | Completes
  | Refuses (e : exn)
  | Aborts (e : exn) (debris : content).

(** What the engine does not decide itself: path resolution ([os.path.abspath],
    [os.path.dirname]) and whether [Document.save] and [Converter.convert]
    get their output written at a path they can write to. *)
Record platform := Platform {
  abspath : string → string;
  dirname : string → string;
  save_outcome : list page → string → write_outcome;
  convert_outcome : list page → string → write_outcome }.

(** The pages [Document.insert_pdf(src, from_page=, to_page=)] copies:
    PyMuPDF clamps both numbers to the source (a negative [to_page] means
    the last page) and copies backwards when [from_page > to_page].  On a
    source without pages both numbers come out as -1, the page that is then
    looked up is not there, and the call raises: there is nothing to copy
    ([None]). *)
Definition page_slice (src : list page) (from_page to_page : Z) : option (list page) :=
  let n := Z.of_nat (length src) in
  let fp := Z.min (Z.max from_page 0) (n - 1) in
  let tp := Z.min (if (to_page <? 0)%Z then n - 1 else to_page) (n - 1) in
  if (n =? 0)%Z then None
  else if (fp <=? tp)%Z
       then Some (take (Z.to_nat (tp - fp + 1)) (drop (Z.to_nat fp) src))
       else Some (reverse (take (Z.to_nat (fp - tp + 1)) (drop (Z.to_nat tp) src))).

(** What MuPDF raises when the page to copy is not in the source. *)
Definition malformed_page_tree : exn :=
  Exn (ForeignError "fitz.mupdf.FzErrorFormat") "code=7: malformed page tree".

(** What [fitz.open(path)] raises on a path it does not open, by what is
    found there: nothing, a directory, a file of no bytes, or a file that
    is not a PDF.  (The path is printed as [repr] prints a string without
    quotes or escapes in it.) *)
Definition open_failure (path : string) (found : option node) : exn :=
  match found with
  | None =>
      Exn (ForeignError "fitz.FileNotFoundError") ("no such file: '" +:+ path +:+ "'")
  | Some Directory =>
      Exn (ForeignError "fitz.FileDataError") ("'" +:+ path +:+ "' is no file")
  | Some (RegularFile (RawData EmptyString)) =>
      Exn (ForeignError "fitz.EmptyFileError")
          ("Cannot open empty file: filename='" +:+ path +:+ "'.")
  | Some (RegularFile _) =>
      Exn (ForeignError "fitz.FileDataError") ("Failed to open file '" +:+ path +:+ "'.")
  end.

(** What the two libraries raise when the path to write names a directory:
    MuPDF ([Document.save]) when it cannot remove it, [os.remove] (pdf2docx)
    in any case. *)
Definition directory_not_empty (path : string) : exn :=
  Exn (ForeignError "fitz.mupdf.FzErrorSystem")
      ("code=2: cannot remove file '" +:+ path +:+ "': Directory not empty").

Definition is_a_directory (path : string) : exn :=
  Exn (ForeignError "IsADirectoryError") ("[Errno 21] Is a directory: '" +:+ path +:+ "'").

(** The three [ValueError]s of the range checks (pdf_engine.py lines 81, 83
    and 85-87); [pretty] prints an integer as [str] does. *)
Definition page_numbers_below_one : exn :=
  Exn ValueError "Page numbers must be >= 1.".

Definition start_after_end : exn :=
  Exn ValueError "Start page cannot be greater than end page.".

Definition end_exceeds_count (end_page total_pages : Z) : exn :=
  Exn ValueError ("End page " +:+ pretty end_page +:+
                  " exceeds document page count " +:+ pretty total_pages +:+ ".").

Definition closed_document : exn := Exn ValueError "document closed".

Section Engine.
Variable P : platform.

(** *** os.path *)

Definition os_path_exists (path : string) : M bool := λ w,
  (log (QueryExists path) w, Ok (bool_decide (is_Some (fs w !! abspath P path)))).

Definition os_path_isdir (path : string) : M bool := λ w,
  (log (QueryIsDir path) w, Ok (bool_decide (fs w !! abspath P path = Some Directory))).

(** [os.path.dirname(os.path.abspath(output_path)) or "."] *)
Definition output_dir_of (output_path : string) : string :=
  let d := dirname P (abspath P output_path) in
  if String.eqb d "" then "." else d.

(** *** PyMuPDF *)

Definition alloc (r : resource) : M nat := λ w,
  let h := fresh (dom (heap w)) in
  (World (fs w) (<[h := r]> (heap w)) (trace w), Ok h).

(** [fitz.open()]: a new empty document, held in memory. *)
Definition fitz_open_new : M nat := alloc (Document []).

(** [fitz.open(path)]: only a PDF file opens. *)
Definition fitz_open (path : string) : M nat := λ w,
  let w' := log (OpenFile path) w in
  match fs w !! abspath P path with
  | Some (RegularFile (PdfData pages)) => alloc (Document pages) w'
  | found => (w', Raise (open_failure path found))
  end.

(** [doc.page_count] *)
Definition doc_page_count (doc : nat) : M Z := λ w,
  match heap w !! doc with
  | Some (Document pages) => (w, Ok (Z.of_nat (length pages)))
  | _ => (w, Raise closed_document)
  end.

(** [doc.insert_pdf(src, from_page=, to_page=)]: the copied pages are
    appended to [doc]; both arguments default to [-1].  A source without
    pages makes it raise. *)
Definition doc_insert_pdf (doc src : nat) (from_page to_page : Z) : M unit := λ w,
  match heap w !! doc, heap w !! src with
  | Some (Document pages), Some (Document src_pages) =>
      match page_slice src_pages from_page to_page with
      | Some copied =>
          (World (fs w) (<[doc := Document (pages ++ copied)]> (heap w)) (trace w), Ok tt)
      | None => (w, Raise malformed_page_tree)
      end
  | _, _ => (w, Raise closed_document)
  end.

(** A write of [whole] at [path] by a wrapped library, on the file system
    alone, ending as [o] says: the file is there whole, nothing has been
    touched, or the debris is there. *)
Definition write_effect (path : string) (whole : content) (o : write_outcome)
    (files : gmap string node) : gmap string node * result unit :=
  match o with
  | Completes => (<[abspath P path := RegularFile whole]> files, Ok tt)
  | Refuses e => (files, Raise e)
  | Aborts e debris => (<[abspath P path := RegularFile debris]> files, Raise e)
  end.

Definition write_file (path : string) (whole : content) (o : write_outcome) : M unit := λ w,
  let '(files, r) := write_effect path whole o (fs w) in
  (World files (heap w) (trace w ++ [WriteFile path]), r).

(** The directory [dir] holds something. *)
Definition has_entries (files : gmap string node) (dir : string) : bool :=
  bool_decide (map_Exists (λ p _, p ≠ dir ∧ dirname P p = dir) files).

(** How [doc.save(path)] ends on these files.  MuPDF first removes what is
    at the path, a directory without entries like a file; a directory with
    entries stays and the save raises.  Otherwise the platform decides. *)
Definition save_verdict (files : gmap string node) (pages : list page) (path : string)
    : write_outcome :=
  match files !! abspath P path with
  | Some Directory =>
      if has_entries files (abspath P path)
      then Refuses (directory_not_empty path)
      else save_outcome P pages path
  | _ => save_outcome P pages path
  end.

(** How [cv.convert(path)] ends on these files.  pdf2docx removes what is at
    the path with [os.remove], which raises on a directory.  Otherwise the
    platform decides. *)
Definition convert_verdict (files : gmap string node) (pages : list page) (path : string)
    : write_outcome :=
  match files !! abspath P path with
  | Some Directory => Refuses (is_a_directory path)
  | _ => convert_outcome P pages path
  end.

(** [doc.save(path)] *)
Definition doc_save (doc : nat) (path : string) : M unit := λ w,
  match heap w !! doc with
  | Some (Document pages) =>
      write_file path (PdfData pages) (save_verdict (fs w) pages path) w
  | _ => (w, Raise closed_document)
  end.

(** [doc.close()] *)
Definition doc_close (doc : nat) : M unit := λ w,
  match heap w !! doc with
  | Some (Document _) => (World (fs w) (delete doc (heap w)) (trace w), Ok tt)
  | _ => (w, Raise closed_document)
  end.

(** [with fitz.open(path) as src: body src] *)
Definition with_fitz_open {A} (path : string) (body : nat → M A) : M A :=
  src ← fitz_open path;
  try_finally (body src) (doc_close src).

(** *** pdf2docx *)

(** [Converter(path)]: opens the PDF with PyMuPDF and keeps it open. *)
Definition Converter (path : string) : M nat := λ w,
  let w' := log (OpenFile path) w in
  match fs w !! abspath P path with
  | Some (RegularFile (PdfData pages)) => alloc (PdfConverter pages) w'
  | found => (w', Raise (open_failure path found))
  end.

(** [cv.convert(path)]: all pages. *)
Definition cv_convert (cv : nat) (path : string) : M unit := λ w,
  match heap w !! cv with
  | Some (PdfConverter pages) =>
      write_file path (DocxData pages) (convert_verdict (fs w) pages path) w
  | _ => (w, Raise closed_document)
  end.

(** [cv.close()] *)
Definition cv_close (cv : nat) : M unit := λ w,
  match heap w !! cv with
  | Some (PdfConverter _) => (World (fs w) (delete cv (heap w)) (trace w), Ok tt)
  | _ => (w, Raise closed_document)
  end.

(** *** PdfEngine *)

(** The output-directory check shared by the three methods
    (pdf_engine.py lines 46-48, 98-102, 126-130). *)
Definition check_output_dir (output_path : string) : M unit :=
  let output_dir := output_dir_of output_path in
  isdir ← os_path_isdir output_dir;
  if negb isdir
  then raise (Exn FileNotFoundError ("Output directory does not exist: " +:+ output_dir))
  else mret tt.

(** The [for path in input_files] loop of [merge_pdfs] (lines 37-43). *)
Fixpoint merge_loop (merged : nat) (input_files : list string) : M unit :=
  match input_files with
  | [] => mret tt
  | path :: rest =>
      found ← os_path_exists path;
      if negb found
      then raise (Exn FileNotFoundError ("File not found: " +:+ path))
      else
        with_fitz_open path (λ src, doc_insert_pdf merged src (-1) (-1));;
        merge_loop merged rest
  end.

Definition merge_pdfs (input_files : list string) (output_path : string) : M unit :=
  match input_files with
  | [] => raise (Exn ValueError "there is no input files provided to merge.")
  | _ :: _ =>
      merged ← fitz_open_new;
      try_finally
        (try_except
           (merge_loop merged input_files;;
            check_output_dir output_path;;
            doc_save merged output_path)
           (λ exc, raise (ExnFrom RuntimeError ("Failed to merge PDFs: " +:+ str exc) exc)))
        (doc_close merged)
  end.

(** The three range checks of [split_pdf] (lines 80-87), each raising
    the [ValueError] of its line. *)
Definition validate_page_range (start_page end_page total_pages : Z) : M unit :=
  if ((start_page <? 1) || (end_page <? 1))%Z
  then raise page_numbers_below_one
  else if (start_page >? end_page)%Z
  then raise start_after_end
  else if (end_page >? total_pages)%Z
  then raise (end_exceeds_count end_page total_pages)
  else mret tt.

Definition split_pdf (input_file : string) (start_page end_page : Z)
    (output_path : string) : M unit :=
  found ← os_path_exists input_file;
  if negb found
  then raise (Exn FileNotFoundError ("Source file not found: " +:+ input_file))
  else
    try_except
      (with_fitz_open input_file (λ src,
         total_pages ← doc_page_count src;
         validate_page_range start_page end_page total_pages;;
         new_doc ← fitz_open_new;
         try_finally
           (doc_insert_pdf new_doc src (start_page - 1) (end_page - 1);;
            check_output_dir output_path;;
            doc_save new_doc output_path)
           (doc_close new_doc)))
      (λ exc, raise (ExnFrom RuntimeError ("Failed to split PDF: " +:+ str exc) exc)).

Definition pdf_to_docx (input_file output_path : string) : M unit :=
  found ← os_path_exists input_file;
  if negb found
  then raise (Exn FileNotFoundError ("Source file not found: " +:+ input_file))
  else
    try_except
      (check_output_dir output_path;;
       cv ← Converter input_file;
       cv_convert cv output_path;;
       cv_close cv)
      (λ exc, raise (ExnFrom RuntimeError ("Failed to convert PDF to DOCX: " +:+ str exc)
                         exc)).

End Engine.

(** ** A concrete platform: POSIX paths under a working directory *)

(** [posixpath.dirname]: everything up to the last slash, with trailing
    slashes dropped unless the head is all slashes. *)
Fixpoint last_slash (s : string) : option nat :=
  match s with
  | EmptyString => None
  | String c rest =>
      match last_slash rest with
      | Some i => Some (S i)
      | None => if Ascii.eqb c "/"%char then Some 0 else None
      end
  end.

Fixpoint all_slashes (s : string) : bool :=
  match s with
  | EmptyString => true
  | String c rest => Ascii.eqb c "/"%char && all_slashes rest
  end.

Fixpoint rstrip_slashes (s : string) : string :=
  match s with
  | EmptyString => EmptyString
  | String c rest =>
      if all_slashes (String c rest) then EmptyString else String c (rstrip_slashes rest)
  end.

Definition posix_dirname (p : string) : string :=
  match last_slash p with
  | None => ""
  | Some i =>
      let head := String.substring 0 (S i) p in
      if all_slashes head then head else rstrip_slashes head
  end.

(** [posixpath.abspath] for paths that are already normalised: a relative
    path is joined to the working directory. *)
Definition posix_abspath (cwd p : string) : string :=
  match p with
  | String "/" _ => p
  | _ => cwd +:+ "/" +:+ p
  end.

(** A platform on which every write goes through. *)
Definition posix (cwd : string) : platform :=
  Platform (posix_abspath cwd) posix_dirname (λ _ _, Completes) (λ _ _, Completes).


(** ** Worlds for the examples *)

(** A home directory with a three-page and a two-page PDF, a ten-page PDF,
    a PDF without pages, a file that is not a PDF and a sub-directory. *)
Definition home : world :=
  World (list_to_map
           [("/home/u", Directory);
            ("/home/u/A.pdf", RegularFile (PdfData ["a1"; "a2"; "a3"]));
            ("/home/u/B.pdf", RegularFile (PdfData ["b1"; "b2"]));
            ("/home/u/doc.pdf",
             RegularFile (PdfData ["p1"; "p2"; "p3"; "p4"; "p5";
                                   "p6"; "p7"; "p8"; "p9"; "p10"]));
            ("/home/u/blank.pdf", RegularFile (PdfData []));
            ("/home/u/broken.pdf", RegularFile (RawData ""));
            ("/home/u/archive", Directory)])
        ∅ [].

(** The same platform, except that a save or conversion to [victim] breaks
    off part-way and leaves a truncated file behind. *)
Definition disk_fills_at (cwd victim : string) : platform :=
  let failing (_ : list page) (path : string) :=
    if String.eqb path victim
    then Aborts (Exn (ForeignError "OSError") "No space left on device")
                (RawData "%PDF-1.7 (truncated)")
    else Completes in
  Platform (posix_abspath cwd) posix_dirname failing failing.

(** ** Vocabulary of the statements *)

(** [path] names a PDF file with these pages. *)
Definition pdf_at (P : platform) (files : gmap string node) (path : string)
    (pages : list page) : Prop :=
  files !! abspath P path = Some (RegularFile (PdfData pages)).

(** The directory the engine checks before writing to [output_path]. *)
Definition output_dir_exists (P : platform) (files : gmap string node)
    (output_path : string) : Prop :=
  files !! abspath P (output_dir_of P output_path) = Some Directory.

Global Instance output_dir_exists_dec P files output_path :
  Decision (output_dir_exists P files output_path).
Proof. unfold output_dir_exists. apply _. Defined.

(** [output_path] is not itself a directory. *)
Definition not_a_directory (P : platform) (files : gmap string node)
    (output_path : string) : Prop :=
  files !! abspath P output_path ≠ Some Directory.

(** Pages [start_page] to [end_page] of a document, counted from 1, both
    ends included. *)
Definition pages_between (pages : list page) (start_page end_page : Z) : list page :=
  take (Z.to_nat (end_page - start_page + 1)) (drop (Z.to_nat (start_page - 1)) pages).

(** The file-system calls of [merge_loop] over files that all open. *)
Definition probes (input_files : list string) : list event :=
  flat_map (λ path, [QueryExists path; OpenFile path]) input_files.

(** No event of the list is a write. *)
Definition no_write (evs : list event) : Prop :=
  Forall (λ ev, is_write ev = false) evs.

(** The class of the exception an outcome raises, if it raises. *)
Definition exn_class_of {A} (r : result A) : option pyclass :=
  match r with Ok _ => None | Raise exc => Some (exn_class exc) end.

(** The exception reports [cause]: it is [cause] itself or was raised from it. *)
Definition reports (exc cause : exn) : Prop :=
  exc = cause ∨ exn_cause exc = Some cause.

(** What [except Exception as exc: raise RuntimeError(prefix + str(exc)) from exc]
    makes of an outcome. *)
Definition wrapped (prefix : string) (r : result unit) : result unit :=
  match r with
  | Ok a => Ok a
  | Raise exc => Raise (ExnFrom RuntimeError (prefix +:+ str exc) exc)
  end.

(** The operation failed without a write, and the file system is as it was. *)
Definition quiet_failure (w : world) (res : world * result unit) : Prop :=
  (∃ exc, res.2 = Raise exc) ∧
  fs res.1 = fs w ∧
  ∃ evs, trace res.1 = trace w ++ evs ∧ no_write evs.

(** When each operation gets to its write, what it hands to the library
    then, and how the library ends that write.  [merge_pdfs]: the list is
    not empty, every file opens and has pages, and the pages of all the
    files, in order, are handed over.  [split_pdf]: the source opens, the
    range is within it, and the pages of the range are handed over.
    [pdf_to_docx]: the source opens, and all its pages are handed over.
    In each case the directory of the output path is there. *)
Definition merge_hands (P : platform) (files : gmap string node)
    (input_files : list string) (output_path : string)
    (whole : content) (o : write_outcome) : Prop :=
  input_files ≠ [] ∧
  output_dir_exists P files output_path ∧
  ∃ docs,
    Forall2 (pdf_at P files) input_files docs ∧
    Forall (λ d, d ≠ []) docs ∧
    whole = PdfData (concat docs) ∧
    o = save_verdict P files (concat docs) output_path.

Definition split_hands (P : platform) (files : gmap string node)
    (input_file : string) (start_page end_page : Z) (output_path : string)
    (whole : content) (o : write_outcome) : Prop :=
  output_dir_exists P files output_path ∧
  ∃ pages,
    pdf_at P files input_file pages ∧
    (1 ≤ start_page ≤ end_page ∧ end_page ≤ Z.of_nat (length pages))%Z ∧
    whole = PdfData (pages_between pages start_page end_page) ∧
    o = save_verdict P files (pages_between pages start_page end_page) output_path.

Definition convert_hands (P : platform) (files : gmap string node)
    (input_file output_path : string) (whole : content) (o : write_outcome) : Prop :=
  output_dir_exists P files output_path ∧
  ∃ pages,
    pdf_at P files input_file pages ∧
    whole = DocxData pages ∧
    o = convert_verdict P files pages output_path.

(** An operation that was to write [output_path], by the calls it has made;
    [handed whole o] says what it hands to the library ([whole]) and how
    the library ends that write ([o]).  Either the operation has failed
    without a write, and the file system is as it was.  Or it has made one
    write, at [output_path], as the last of its calls, and how the library
    ended that write is all that has happened to the file system: the
    write completed, the operation has succeeded and the file is there
    whole; the write was refused, the operation has failed and nothing has
    changed; the write broke off, the operation has failed and the debris
    is still there. *)
Definition atomic_but_for_aborts (P : platform) (output_path : string)
    (handed : content → write_outcome → Prop) (w : world) (res : world * result unit)
    : Prop :=
  ∃ evs,
    trace res.1 = trace w ++ evs ∧
    ((no_write evs ∧ fs res.1 = fs w ∧ ∃ exc, res.2 = Raise exc) ∨
     ∃ before whole o,
       evs = before ++ [WriteFile output_path] ∧ no_write before ∧
       handed whole o ∧
       match o with
       | Completes =>
           res.2 = Ok tt ∧
           fs res.1 = <[abspath P output_path := RegularFile whole]> (fs w)
       | Refuses e =>
           (∃ exc, res.2 = Raise exc ∧ exn_cause exc = Some e) ∧
           fs res.1 = fs w
       | Aborts e debris =>
           (∃ exc, res.2 = Raise exc ∧ exn_cause exc = Some e) ∧
           fs res.1 = <[abspath P output_path := RegularFile debris]> (fs w)
       end).

(** ** The pages of the window (app/ui.py) and the dialogs (app/utils.py) *)

(** What the toolkit and the built-ins decide: [os.path.basename], the
    rendering of a page to a picture at a scale given in tenths
    ([page.get_pixmap(matrix=fitz.Matrix(s, s))] and its conversion to a
    [QPixmap]: the picture, or the exception raised), and
    [int(text.strip())] ([None] for its [ValueError]). *)
Record toolkit := Toolkit {
  basename : string → string;
  get_pixmap : nat → page → exn + string;
  int_of_text : string → option Z }.

(** A [QListWidgetItem]: its icon, its text and its [Qt.UserRole] data. *)
Record list_item := ListItem {
  item_icon : option string;
  item_text : string;
  item_data : option string }.

(** What the window puts in front of the user, in order. *)
Inductive dialog :=
  | Critical (title message : string)
  | Information (title message : string)
  | SaveFileName (caption directory filter : string)
  | OpenFileNames (caption directory filter : string).

(** A preview of [_load_preview]: the picture and its label, or the stretch
    that ends the row. *)
Inductive preview :=
  | PagePreview (picture label : string)
  | Stretch.

Record gui := Gui {
  gworld : world;
  pdf_list : list list_item;
  preview_layout : list preview;
  shown : list dialog }.

Definition G (A : Type) : Type := gui → gui * result A.

Global Instance G_ret : MRet G := λ A a g, (g, Ok a).
Global Instance G_bind : MBind G := λ A B f m g,
  match m g with
  | (g', Ok a) => f a g'
  | (g', Raise e) => (g', Raise e)
  end.

Definition gui_raise {A} (e : exn) : G A := λ g, (g, Raise e).

Definition gui_try_except {A} (body : G A) (handler : exn → G A) : G A := λ g,
  match body g with
  | (g', Ok a) => (g', Ok a)
  | (g', Raise exc) => handler exc g'
  end.

(** A method that returns gives up its locals: a document it has opened
    and not closed is finalised then, which closes it, so that only the
    handles that were open when the method was entered are left.  (When it
    raises, the traceback keeps its locals alive.) *)
Definition release_locals {A} (body : G A) : G A := λ g,
  match body g with
  | (g', Ok a) =>
      (Gui (World (fs (gworld g'))
                  (filter (λ held, is_Some (heap (gworld g) !! held.1)) (heap (gworld g')))
                  (trace (gworld g')))
           (pdf_list g') (preview_layout g') (shown g'), Ok a)
  | (g', Raise exc) => (g', Raise exc)
  end.

(** A call into the engine or the library from a page. *)
Definition lift {A} (m : M A) : G A := λ g,
  let '(w', r) := m (gworld g) in
  (Gui w' (pdf_list g) (preview_layout g) (shown g), r).

Definition show (d : dialog) : G unit := λ g,
  (Gui (gworld g) (pdf_list g) (preview_layout g) (shown g ++ [d]), Ok tt).

(** utils.py: [show_error_dialog] is [QMessageBox.critical], and
    [show_info_dialog] is [QMessageBox.information]. *)
Definition show_error_dialog (title message : string) : G unit :=
  show (Critical title message).

Definition show_info_dialog (title message : string) : G unit :=
  show (Information title message).

(** [QFileDialog.getSaveFileName]: the dialog is put up and [answer] is what
    comes back, the empty string when the user cancels. *)
Definition getSaveFileName (caption directory filter answer : string) : G string :=
  show (SaveFileName caption directory filter);; mret answer.

Definition getOpenFileNames (caption directory filter : string) (answer : list string)
    : G (list string) :=
  show (OpenFileNames caption directory filter);; mret answer.

(** [self.addItem(item)] and [self.clear()] of the list widget. *)
Definition addItem (item : list_item) : G unit := λ g,
  (Gui (gworld g) (pdf_list g ++ [item]) (preview_layout g) (shown g), Ok tt).

Definition clear : G unit := λ g,
  (Gui (gworld g) [] (preview_layout g) (shown g), Ok tt).

(** [self.preview_layout.addWidget(..)], [addStretch()], and the loop that
    takes every preview out of the layout. *)
Definition addWidget (p : preview) : G unit := λ g,
  (Gui (gworld g) (pdf_list g) (preview_layout g ++ [p]) (shown g), Ok tt).

Definition addStretch : G unit := addWidget Stretch.

Definition clear_previews : G unit := λ g,
  (Gui (gworld g) (pdf_list g) [] (shown g), Ok tt).

(** [doc[i]] *)
Definition doc_getitem (doc : nat) (i : nat) : M page := λ w,
  match heap w !! doc with
  | Some (Document pages) =>
      match pages !! i with
      | Some p => (w, Ok p)
      | None => (w, Raise (Exn (ForeignError "IndexError") "page not in document"))
      end
  | _ => (w, Raise closed_document)
  end.

Definition newline : string := String "010"%char EmptyString.

(** [PDFListWidget.get_all_paths] (ui.py lines 453-462): the data of the
    items, in their order, leaving out items without a path. *)
Fixpoint get_all_paths (items : list list_item) : list string :=
  match items with
  | [] => []
  | item :: rest =>
      match item_data item with
      | Some path => if String.eqb path "" then get_all_paths rest
                     else path :: get_all_paths rest
      | None => get_all_paths rest
      end
  end.

Section Pages.
Variable P : platform.
Variable T : toolkit.

(** [page.get_pixmap(..)] and the conversion to a [QPixmap]. *)
Definition render (scale : nat) (p : page) : G string := λ g,
  match get_pixmap T scale p with
  | inr picture => (g, Ok picture)
  | inl exc => (g, Raise exc)
  end.

(** [PDFListWidget.add_pdf] (ui.py lines 426-451); [doc] is a local of the
    method. *)
Definition add_pdf (file_path : string) : G unit :=
  release_locals
    (gui_try_except
       (doc ← lift (fitz_open P file_path);
        page_count ← lift (doc_page_count doc);
        (if (page_count >? 0)%Z
         then
           page ← lift (doc_getitem doc 0);
           pixmap ← render 2 page;
           addItem (ListItem (Some pixmap)
                             (basename T file_path +:+ newline +:+ file_path)
                             (Some file_path))
         else mret tt);;
        lift (doc_close doc))
       (λ e, addItem (ListItem None
                               (basename T file_path +:+ newline +:+ file_path)
                               (Some file_path)))).

(** The [for path in files] loop of [MergePage.on_add_files]. *)
Fixpoint add_pdfs (files : list string) : G unit :=
  match files with
  | [] => mret tt
  | path :: rest => add_pdf path;; add_pdfs rest
  end.

(** [MergePage.on_add_files] (ui.py lines 164-169); [answer] is the list of
    files the user picks. *)
Definition on_add_files (answer : list string) : G unit :=
  files ← getOpenFileNames "Select PDF files to merge" "" "PDF files (*.pdf)" answer;
  add_pdfs files.

(** The [for page_num in range(max_pages)] loop of [_load_preview]. *)
Fixpoint preview_pages (doc : nat) (page_nums : list nat) : G unit :=
  match page_nums with
  | [] => mret tt
  | page_num :: rest =>
      page ← lift (doc_getitem doc page_num);
      pixmap ← render 3 page;
      addWidget (PagePreview pixmap ("Page " +:+ pretty (page_num + 1)%nat));;
      preview_pages doc rest
  end.

(** [SplitPage._load_preview] (ui.py lines 276-315); [doc] is a local of
    the method. *)
Definition _load_preview (pdf_path : string) : G unit :=
  release_locals
    (clear_previews;;
     gui_try_except
       (doc ← lift (fitz_open P pdf_path);
        page_count ← lift (doc_page_count doc);
        let max_pages := Z.min 10 page_count in
        preview_pages doc (seq 0 (Z.to_nat max_pages));;
        addStretch;;
        lift (doc_close doc))
       (λ e, show_error_dialog "Preview failed" ("Could not load preview: " +:+ str e))).

(** [MergePage.on_execute_merge] (ui.py lines 175-192); [answer] is what the
    save dialog returns if it is put up. *)
Definition on_execute_merge (answer : string) : G unit :=
  λ g,
    let paths := get_all_paths (pdf_list g) in
    match paths with
    | [] => show_error_dialog "No files" "Please add at least one PDF to merge." g
    | _ :: _ =>
        (output_path ← getSaveFileName "Save merged PDF as..." "merged.pdf"
                         "PDF files (*.pdf)" answer;
         if String.eqb output_path "" then mret tt
         else
           gui_try_except
             (lift (merge_pdfs P paths output_path);;
              show_info_dialog "Success"
                ("Merged PDF saved to:" +:+ newline +:+ output_path);;
              clear)
             (λ exc, show_error_dialog "Merge failed" (str exc))) g
    end.

(** [SplitPage.on_execute_split] (ui.py lines 317-339), on the page's
    source path ([if not self.source_path]: no path, or an empty one) and
    the texts of its two fields. *)
Definition on_execute_split (source_path : option string) (start_text end_text : string)
    (answer : string) : G unit :=
  match source_path with
  | Some source =>
      if String.eqb source ""
      then show_error_dialog "No source file" "Please select a PDF to split."
      else
        match int_of_text T start_text, int_of_text T end_text with
        | Some start_page, Some end_page =>
            output_path ← getSaveFileName "Save split PDF as..." "split.pdf"
                            "PDF files (*.pdf)" answer;
            if String.eqb output_path "" then mret tt
            else
              gui_try_except
                (lift (split_pdf P source start_page end_page output_path);;
                 show_info_dialog "Success"
                   ("Split PDF saved to:" +:+ newline +:+ output_path))
                (λ exc, show_error_dialog "Split failed" (str exc))
        | _, _ =>
            show_error_dialog "Invalid input" "Start and end pages must be numbers."
        end
  | None => show_error_dialog "No source file" "Please select a PDF to split."
  end.

(** [ConvertPage.on_execute_convert] (ui.py lines 395-410). *)
Definition on_execute_convert (source_path : option string) (answer : string) : G unit :=
  match source_path with
  | Some source =>
      if String.eqb source ""
      then show_error_dialog "No source file" "Please select a PDF to convert."
      else
        output_path ← getSaveFileName "Save DOCX as..." "output.docx"
                        "Word files (*.docx)" answer;
        if String.eqb output_path "" then mret tt
        else
          gui_try_except
            (lift (pdf_to_docx P source output_path);;
             show_info_dialog "Success"
               ("DOCX file saved to:" +:+ newline +:+ output_path))
            (λ exc, show_error_dialog "Conversion failed" (str exc))
  | None => show_error_dialog "No source file" "Please select a PDF to convert."
  end.

End Pages.

(** ** A concrete toolkit *)

(** [posixpath.basename]: what follows the last slash. *)
Definition posix_basename (p : string) : string :=
  match last_slash p with
  | None => p
  | Some i => String.substring (S i) (String.length p - S i) p
  end.

(** [int(text.strip())] for plain decimal text: optional ASCII white space
    around an optional sign and one or more ASCII digits. *)
Definition is_space (c : ascii) : bool :=
  let n := nat_of_ascii c in
  ((9 <=? n) && (n <=? 13) || (n =? 32))%nat.

Fixpoint lstrip (s : string) : string :=
  match s with
  | String c rest => if is_space c then lstrip rest else s
  | EmptyString => EmptyString
  end.

Fixpoint all_spaces (s : string) : bool :=
  match s with
  | EmptyString => true
  | String c rest => is_space c && all_spaces rest
  end.

Fixpoint rstrip (s : string) : string :=
  match s with
  | EmptyString => EmptyString
  | String c rest => if all_spaces (String c rest) then EmptyString else String c (rstrip rest)
  end.

Fixpoint digits_value (s : string) (acc : Z) : option Z :=
  match s with
  | EmptyString => Some acc
  | String c rest =>
      let n := nat_of_ascii c in
      if ((48 <=? n) && (n <=? 57))%nat
      then digits_value rest (10 * acc + Z.of_nat (n - 48))
      else None
  end.

Definition decimal_int (text : string) : option Z :=
  match rstrip (lstrip text) with
  | EmptyString => None
  | String "-" (String c rest) => Z.opp <$> digits_value (String c rest) 0
  | String "+" (String c rest) => digits_value (String c rest) 0
  | String c rest => digits_value (String c rest) 0
  end.

(** A toolkit on which every page renders. *)
Definition desk : toolkit :=
  Toolkit posix_basename (λ _ p, inr ("picture of " +:+ p)) decimal_int.

(** The window as it opens in the home directory: nothing listed, nothing
    previewed, nothing shown yet. *)
Definition opened_window : gui := Gui home [] [] [].

(** A window in a directory that holds a twelve-page PDF. *)
Definition long_window : gui :=
  Gui (World (list_to_map
                [("/home/u", Directory);
                 ("/home/u/long.pdf",
                  RegularFile (PdfData ["1"; "2"; "3"; "4"; "5"; "6";
                                        "7"; "8"; "9"; "10"; "11"; "12"]))])
             ∅ [])
      [] [PagePreview "stale" "Page 1"; Stretch] [].

(** ** Files dropped on the list (ui.py lines 478-491) *)

(** [str.lower] on the ASCII letters, which are all that the test for the
    suffix ".pdf" depends on. *)
Definition ascii_lower (c : ascii) : ascii :=
  let n := nat_of_ascii c in
  if ((65 <=? n) && (n <=? 90))%nat then ascii_of_nat (n + 32) else c.

Fixpoint lower (s : string) : string :=
  match s with
  | EmptyString => EmptyString
  | String c rest => String (ascii_lower c) (lower rest)
  end.

(** [s.endswith(suffix)] *)
Definition endswith (s suffix : string) : bool :=
  (String.length suffix <=? String.length s)%nat &&
  String.eqb (String.substring (String.length s - String.length suffix)
                               (String.length suffix) s)
             suffix.

(** What [dropEvent] reads of its event: whether the mime data has URLs,
    the local file of each URL, and whether the drag started in the list
    itself. *)
Record drop_event := DropEvent {
  has_urls : bool;
  local_files : list string;
  from_self : bool }.

(** What [dropEvent] does with the event: it accepts it, ignores it, or
    hands it to [QListWidget.dropEvent] for the reordering. *)
Inductive drop_answer :=
  | AcceptProposedAction
  | Ignore
  | SuperDropEvent.

Section Drops.
Variable P : platform.
Variable T : toolkit.

(** The [for url in event.mimeData().urls()] loop. *)
Fixpoint add_dropped (files : list string) : G unit :=
  match files with
  | [] => mret tt
  | file_path :: rest =>
      (if endswith (lower file_path) ".pdf" then add_pdf P T file_path else mret tt);;
      add_dropped rest
  end.

(** [PDFListWidget.dropEvent] *)
Definition dropEvent (event : drop_event) : G drop_answer :=
  if has_urls event
  then add_dropped (local_files event);; mret AcceptProposedAction
  else if from_self event
  then mret SuperDropEvent
  else mret Ignore.

End Drops.

(** * Properties *)

(** ** The primitives, step by step *)

Lemma world_eta (w : world) : World (fs w) (heap w) (trace w) = w.
Proof. by destruct w. Qed.

Lemma fresh_handle_unused (hp : gmap nat resource) : hp !! fresh (dom hp) = None.
Proof. apply not_elem_of_dom, is_fresh. Qed.

Lemma fresh_handle_ne (hp : gmap nat resource) (h : nat) (r : resource) :
  hp !! h = Some r → h ≠ fresh (dom hp).
Proof. intros Hh ->. by rewrite fresh_handle_unused in Hh. Qed.

(** A handle opened and closed around an update of another handle leaves
    only that update. *)
Lemma heap_scratch (hp : gmap nat resource) (h : nat) (r r' s : resource) :
  hp !! h = Some r →
  delete (fresh (dom hp)) (<[h := r']> (<[fresh (dom hp) := s]> hp)) = <[h := r']> hp.
Proof.
  intros Hh. pose proof (fresh_handle_ne _ _ _ Hh) as Hne.
  rewrite delete_insert_ne by done.
  by rewrite delete_insert_id by apply fresh_handle_unused.
Qed.

Lemma bind_ok {A B} (m : M A) (f : A → M B) (w w' : world) (a : A) :
  m w = (w', Ok a) → (m ≫= f) w = f a w'.
Proof. unfold mbind, M_bind. by intros ->. Qed.

Lemma bind_raise {A B} (m : M A) (f : A → M B) (w w' : world) (e : exn) :
  m w = (w', Raise e) → (m ≫= f) w = (w', Raise e).
Proof. unfold mbind, M_bind. by intros ->. Qed.

Lemma page_slice_blank (from_page to_page : Z) : page_slice [] from_page to_page = None.
Proof. done. Qed.

Lemma page_slice_all (src : list page) : src ≠ [] → page_slice src (-1) (-1) = Some src.
Proof.
  unfold page_slice. destruct src as [|p src]; [done|]. intros _.
  set (n := Z.of_nat (length (p :: src))).
  assert (1 ≤ n)%Z by (subst n; simpl length; lia).
  rewrite (proj2 (Z.eqb_neq n 0)) by lia.
  change (-1 <? 0)%Z with true. cbv iota.
  rewrite Z.max_r, Z.min_l, Z.min_id by lia.
  rewrite (proj2 (Z.leb_le 0 (n - 1))) by lia.
  replace (Z.to_nat (n - 1 - 0 + 1)) with (length (p :: src)) by lia.
  change (Z.to_nat 0) with 0%nat.
  by rewrite drop_0, firstn_all.
Qed.

Lemma page_slice_range (src : list page) (start_page end_page : Z) :
  (1 ≤ start_page ≤ end_page)%Z → (end_page ≤ Z.of_nat (length src))%Z →
  page_slice src (start_page - 1) (end_page - 1) =
  Some (take (Z.to_nat (end_page - start_page + 1)) (drop (Z.to_nat (start_page - 1)) src)).
Proof.
  intros Hse Het. unfold page_slice.
  set (n := Z.of_nat (length src)) in *.
  rewrite (proj2 (Z.eqb_neq n 0)) by lia.
  rewrite (proj2 (Z.ltb_ge (end_page - 1) 0)) by lia.
  rewrite Z.max_l, !Z.min_l by lia.
  rewrite (proj2 (Z.leb_le (start_page - 1) (end_page - 1))) by lia.
  do 3 f_equal. lia.
Qed.

(** ** Running the code symbolically *)

Ltac unfold_m :=
  unfold check_output_dir, with_fitz_open, try_finally, try_except, mbind, M_bind,
    mret, M_ret, raise, fitz_open, Converter, fitz_open_new, alloc, doc_insert_pdf,
    doc_close, doc_save, cv_convert, cv_close, doc_page_count, os_path_exists,
    os_path_isdir, write_file, log.

Ltac run_step :=
  first
    [ progress cbn beta iota delta [fs heap trace fst snd negb app]
    | rewrite lookup_insert_eq
    | rewrite lookup_insert_ne by done
    | rewrite fresh_handle_unused
    | rewrite insert_insert_eq
    | rewrite delete_insert_id by apply fresh_handle_unused
    | match goal with
      | H : ?m !! ?k = _ |- context [?m !! ?k] => rewrite H
      end
    | rewrite page_slice_blank
    | rewrite page_slice_all by done
    | rewrite bool_decide_eq_true_2 by eauto
    | rewrite bool_decide_eq_false_2 by (try apply is_Some_None; congruence) ].

Ltac run := unfold_m; repeat run_step.

Ltac settle :=
  rewrite ?insert_insert_eq;
  rewrite ?delete_insert_id by apply fresh_handle_unused;
  rewrite <- ?app_assoc; try reflexivity.

(** ** The loop of [merge_pdfs] *)

Section Runs.
Variable P : platform.

(** One turn of the loop on a file that opens: its pages are appended and
    the source handle is gone again. *)
Lemma merge_loop_cons_pdf (w : world) (merged : nat) (acc d : list page)
    (path : string) (rest : list string) :
  heap w !! merged = Some (Document acc) →
  pdf_at P (fs w) path d →
  d ≠ [] →
  merge_loop P merged (path :: rest) w =
  merge_loop P merged rest
    (World (fs w) (<[merged := Document (acc ++ d)]> (heap w))
           (trace w ++ [QueryExists path; OpenFile path])).
Proof.
  unfold pdf_at. intros Hm Hp Hd.
  pose proof (fresh_handle_ne _ _ _ Hm) as Hne.
  cbn [merge_loop]. run.
  erewrite heap_scratch by done. by rewrite <- app_assoc.
Qed.

(** One turn of the loop on a file that opens without pages: [insert_pdf]
    raises, the source is closed on the way out of the [with] block, and
    the loop ends there. *)
Lemma merge_loop_cons_blank (w : world) (merged : nat) (acc : list page)
    (path : string) (rest : list string) :
  heap w !! merged = Some (Document acc) →
  pdf_at P (fs w) path [] →
  merge_loop P merged (path :: rest) w =
  (World (fs w) (heap w) (trace w ++ [QueryExists path; OpenFile path]),
   Raise malformed_page_tree).
Proof.
  unfold pdf_at. intros Hm Hp. destruct w as [files hp tr]. cbn [fs heap trace] in *.
  pose proof (fresh_handle_ne _ _ _ Hm) as Hne.
  cbn [merge_loop]. run. settle.
Qed.

(** Every file opens and has pages: the loop appends all their pages, in
    order. *)
Lemma merge_loop_all (input_files : list string) (docs : list (list page)) :
  ∀ (w : world) (merged : nat) (acc : list page),
    Forall2 (pdf_at P (fs w)) input_files docs →
    Forall (λ d, d ≠ []) docs →
    heap w !! merged = Some (Document acc) →
    merge_loop P merged input_files w =
    (World (fs w) (<[merged := Document (acc ++ concat docs)]> (heap w))
           (trace w ++ probes input_files), Ok tt).
Proof.
  intros w merged acc Hall. revert merged acc.
  destruct w as [files hp tr]. cbn [fs heap trace] in *. revert hp tr.
  induction Hall as [|path d rest docs Hp Hrest IH]; intros hp tr merged acc Hpages Hm.
  - cbn. rewrite !app_nil_r. by rewrite insert_id.
  - apply Forall_cons in Hpages as [Hd Hpages].
    rewrite (merge_loop_cons_pdf _ merged acc d) by done. cbn [fs heap trace].
    rewrite (IH _ _ merged (acc ++ d)) by (done || apply lookup_insert_eq).
    cbn [fs heap trace concat probes flat_map].
    rewrite insert_insert_eq. by rewrite <- !app_assoc.
Qed.

(** The files before [path] open and have pages, and [path] does not
    exist: the loop stops at [path], having made no call for the files
    after it. *)
Lemma merge_loop_missing (before : list string) (docs : list (list page))
    (path : string) (after : list string) :
  ∀ (w : world) (merged : nat) (acc : list page),
    Forall2 (pdf_at P (fs w)) before docs →
    Forall (λ d, d ≠ []) docs →
    fs w !! abspath P path = None →
    heap w !! merged = Some (Document acc) →
    merge_loop P merged (before ++ path :: after) w =
    (World (fs w) (<[merged := Document (acc ++ concat docs)]> (heap w))
           (trace w ++ probes before ++ [QueryExists path]),
     Raise (Exn FileNotFoundError ("File not found: " +:+ path))).
Proof.
  intros w merged acc Hall. revert merged acc.
  destruct w as [files hp tr]. cbn [fs heap trace] in *. revert hp tr.
  induction Hall as [|p d rest docs Hp Hrest IH];
    intros hp tr merged acc Hpages Hmiss Hm.
  - cbn [app merge_loop concat probes flat_map]. run.
    rewrite app_nil_r. by rewrite insert_id.
  - apply Forall_cons in Hpages as [Hd Hpages]. rewrite <- app_comm_cons.
    rewrite (merge_loop_cons_pdf _ merged acc d) by done. cbn [fs heap trace].
    rewrite (IH _ _ merged (acc ++ d)) by (done || apply lookup_insert_eq).
    cbn [fs heap trace concat probes flat_map].
    rewrite insert_insert_eq. by rewrite <- !app_assoc.
Qed.

Lemma no_write_probes (input_files : list string) : no_write (probes input_files).
Proof.
  unfold no_write, probes. induction input_files; cbn; repeat constructor; done.
Qed.

(** Whatever the files are, the loop touches only the log and the pages of
    [merged], and makes no write; it comes to its end only when every file
    opens and has pages, and [merged] then holds them all. *)
Lemma merge_loop_frame (input_files : list string) :
  ∀ (w : world) (merged : nat) (acc : list page),
    heap w !! merged = Some (Document acc) →
    ∃ acc' evs r,
      merge_loop P merged input_files w =
      (World (fs w) (<[merged := Document acc']> (heap w)) (trace w ++ evs), r) ∧
      no_write evs ∧
      (r = Ok tt →
       ∃ docs,
         Forall2 (pdf_at P (fs w)) input_files docs ∧ Forall (λ d, d ≠ []) docs ∧
         acc' = acc ++ concat docs).
Proof.
  induction input_files as [|path rest IH]; intros [files hp tr] merged acc Hm;
    cbn [fs heap trace] in *.
  - exists acc, [], (Ok tt). cbn. rewrite app_nil_r, insert_id by done.
    split; [done|]. split; [constructor|]. intros _. exists [].
    split; [constructor|]. split; [constructor|]. by rewrite app_nil_r.
  - pose proof (fresh_handle_ne _ _ _ Hm) as Hne.
    destruct (files !! abspath P path) as [[|[[|p d]|d|b]]|] eqn:Hp.
    + exists acc, [QueryExists path; OpenFile path]. eexists. split; [|split].
      * cbn [merge_loop]. run. rewrite <- app_assoc. cbn [app].
        by rewrite insert_id.
      * repeat constructor.
      * done.
    + exists acc, [QueryExists path; OpenFile path]. eexists. split; [|split].
      * rewrite (merge_loop_cons_blank _ merged acc) by done. cbn [fs heap trace].
        by rewrite insert_id.
      * repeat constructor.
      * done.
    + destruct (IH (World files (<[merged := Document (acc ++ p :: d)]> hp)
                          (tr ++ [QueryExists path; OpenFile path])) merged
                   (acc ++ p :: d))
        as (acc' & evs & r & Hrun & Hq & Hall); [apply lookup_insert_eq|].
      exists acc', ([QueryExists path; OpenFile path] ++ evs), r. split; [|split].
      * rewrite (merge_loop_cons_pdf _ merged acc (p :: d)) by done.
        cbn [fs heap trace] in *. rewrite Hrun.
        rewrite insert_insert_eq. by rewrite <- !app_assoc.
      * repeat constructor. apply Hq.
      * intros Hr. destruct (Hall Hr) as (docs & Hdocs & Hpages & ->).
        cbn [fs] in Hdocs.
        exists ((p :: d) :: docs). split; [by constructor|].
        split; [by constructor|]. cbn [concat]. by rewrite <- app_assoc.
    + exists acc, [QueryExists path; OpenFile path]. eexists. split; [|split].
      * cbn [merge_loop]. run. rewrite <- app_assoc. cbn [app].
        by rewrite insert_id.
      * repeat constructor.
      * done.
    + exists acc, [QueryExists path; OpenFile path]. eexists. split; [|split].
      * cbn [merge_loop]. run. rewrite <- app_assoc. cbn [app].
        by rewrite insert_id.
      * repeat constructor.
      * done.
    + exists acc, [QueryExists path]. eexists. split; [|split].
      * cbn [merge_loop]. run. by rewrite insert_id.
      * repeat constructor.
      * done.
Qed.

(** ** [merge_pdfs] *)

Lemma merged_handle_closed (hp : gmap nat resource) (r r' : resource) :
  delete (fresh (dom hp)) (<[fresh (dom hp) := r']> (<[fresh (dom hp) := r]> hp)) = hp.
Proof.
  rewrite insert_insert_eq. apply delete_insert_id, fresh_handle_unused.
Qed.

(** Every run of [merge_pdfs] on a non-empty list either stops before it
    writes, leaving the file system as it was, or ends with the one write
    of [doc_save], of the pages of all the files; in both cases every
    handle it opened is closed. *)
Lemma merge_pdfs_outcome (input_files : list string) (output_path : string) (w : world) :
  input_files ≠ [] →
  (∃ evs exc,
     merge_pdfs P input_files output_path w =
     (World (fs w) (heap w) (trace w ++ evs),
      Raise (ExnFrom RuntimeError ("Failed to merge PDFs: " +:+ str exc) exc)) ∧
     no_write evs) ∨
  (∃ evs docs,
     Forall2 (pdf_at P (fs w)) input_files docs ∧ Forall (λ d, d ≠ []) docs ∧
     output_dir_exists P (fs w) output_path ∧ no_write evs ∧
     merge_pdfs P input_files output_path w =
     (World (write_effect P output_path (PdfData (concat docs))
               (save_verdict P (fs w) (concat docs) output_path) (fs w)).1
            (heap w) (trace w ++ evs ++ [WriteFile output_path]),
      wrapped "Failed to merge PDFs: "
        (write_effect P output_path (PdfData (concat docs))
           (save_verdict P (fs w) (concat docs) output_path) (fs w)).2)).
Proof.
  intros Hne. destruct w as [files hp tr]. cbn [fs heap trace].
  destruct input_files as [|path rest]; [done|]. clear Hne.
  destruct (merge_loop_frame (path :: rest)
              (World files (<[fresh (dom hp) := Document []]> hp) tr)
              (fresh (dom hp)) [] (lookup_insert_eq _ _ _))
    as (acc & evs & r & Hrun & Hq & Hall).
  cbn [fs heap trace] in Hrun, Hall. rewrite insert_insert_eq in Hrun.
  unfold merge_pdfs.
  destruct r as [[]|exc].
  - destruct (Hall eq_refl) as (docs & Hdocs & Hpages & ->). cbn [app] in Hrun.
    destruct (decide (files !! abspath P (output_dir_of P output_path) = Some Directory))
      as [Hdir|Hdir].
    + right. exists (evs ++ [QueryIsDir (output_dir_of P output_path)]), docs.
      split; [done|]. split; [done|]. split; [done|].
      split; [apply Forall_app; split; [done|by repeat constructor]|].
      run. rewrite Hrun. run.
      destruct (write_effect P output_path (PdfData (concat docs))
                  (save_verdict P files (concat docs) output_path) files)
        as [files' [[]|e]];
        run; settle.
    + left. exists (evs ++ [QueryIsDir (output_dir_of P output_path)]). eexists.
      split; [|apply Forall_app; split; [done|by repeat constructor]].
      run. rewrite Hrun. run. settle.
  - left. exists evs, exc. split; [|done].
    run. rewrite Hrun. run. settle.
Qed.

(** Every file opens and has pages, and the output directory is there:
    [merge_pdfs] ends with the write of all the pages, in order. *)
Lemma merge_pdfs_writes (input_files : list string) (docs : list (list page))
    (output_path : string) (w : world) :
  input_files ≠ [] →
  Forall2 (pdf_at P (fs w)) input_files docs →
  Forall (λ d, d ≠ []) docs →
  output_dir_exists P (fs w) output_path →
  merge_pdfs P input_files output_path w =
  (World (write_effect P output_path (PdfData (concat docs))
            (save_verdict P (fs w) (concat docs) output_path) (fs w)).1
         (heap w)
         (trace w ++ probes input_files ++
          [QueryIsDir (output_dir_of P output_path); WriteFile output_path]),
   wrapped "Failed to merge PDFs: "
     (write_effect P output_path (PdfData (concat docs))
        (save_verdict P (fs w) (concat docs) output_path) (fs w)).2).
Proof.
  intros Hne Hall Hpages Hdir. destruct w as [files hp tr]. cbn [fs heap trace] in *.
  destruct input_files as [|path rest]; [done|]. unfold merge_pdfs.
  pose proof (merge_loop_all (path :: rest) docs
                (World files (<[fresh (dom hp) := Document []]> hp) tr)
                (fresh (dom hp)) [] Hall Hpages (lookup_insert_eq _ _ _)) as Hrun.
  cbn [fs heap trace app] in Hrun. rewrite insert_insert_eq in Hrun.
  unfold output_dir_exists in Hdir.
  run. rewrite Hrun. run.
  destruct (write_effect P output_path (PdfData (concat docs))
              (save_verdict P files (concat docs) output_path) files) as [files' [[]|e]];
    run; settle.
Qed.

(** Every file opens and has pages, but the output directory is not
    there. *)
Lemma merge_pdfs_no_output_dir (input_files : list string) (docs : list (list page))
    (output_path : string) (w : world) :
  input_files ≠ [] →
  Forall2 (pdf_at P (fs w)) input_files docs →
  Forall (λ d, d ≠ []) docs →
  ¬ output_dir_exists P (fs w) output_path →
  merge_pdfs P input_files output_path w =
  (World (fs w) (heap w)
         (trace w ++ probes input_files ++ [QueryIsDir (output_dir_of P output_path)]),
   wrapped "Failed to merge PDFs: "
     (Raise (Exn FileNotFoundError
                 ("Output directory does not exist: " +:+
                  output_dir_of P output_path)))).
Proof.
  intros Hne Hall Hpages Hdir. destruct w as [files hp tr]. cbn [fs heap trace] in *.
  destruct input_files as [|path rest]; [done|]. unfold merge_pdfs.
  pose proof (merge_loop_all (path :: rest) docs
                (World files (<[fresh (dom hp) := Document []]> hp) tr)
                (fresh (dom hp)) [] Hall Hpages (lookup_insert_eq _ _ _)) as Hrun.
  cbn [fs heap trace app] in Hrun. rewrite insert_insert_eq in Hrun.
  unfold output_dir_exists in Hdir.
  run. rewrite Hrun. run. settle.
Qed.

(** The files before [path] open and have pages, and [path] does not
    exist. *)
Lemma merge_pdfs_stops_at_missing (before : list string) (docs : list (list page))
    (path : string) (after : list string) (output_path : string) (w : world) :
  Forall2 (pdf_at P (fs w)) before docs →
  Forall (λ d, d ≠ []) docs →
  fs w !! abspath P path = None →
  merge_pdfs P (before ++ path :: after) output_path w =
  (World (fs w) (heap w) (trace w ++ probes before ++ [QueryExists path]),
   wrapped "Failed to merge PDFs: "
     (Raise (Exn FileNotFoundError ("File not found: " +:+ path)))).
Proof.
  intros Hall Hpages Hmiss. destruct w as [files hp tr]. cbn [fs heap trace] in *.
  pose proof (merge_loop_missing before docs path after
                (World files (<[fresh (dom hp) := Document []]> hp) tr)
                (fresh (dom hp)) [] Hall Hpages Hmiss (lookup_insert_eq _ _ _)) as Hrun.
  cbn [fs heap trace app] in Hrun. rewrite insert_insert_eq in Hrun.
  unfold merge_pdfs.
  destruct (before ++ path :: after) as [|p l] eqn:Hl;
    [by destruct before|].
  run. rewrite Hrun. run. settle.
Qed.

(** ** [split_pdf] *)

Lemma validate_page_range_pure (start_page end_page total_pages : Z) (w : world) :
  validate_page_range start_page end_page total_pages w =
  (w, (validate_page_range start_page end_page total_pages w).2).
Proof.
  unfold validate_page_range.
  by repeat (case_match; try done).
Qed.

Lemma validate_page_range_any_world (start_page end_page total_pages : Z) (w w' : world) :
  (validate_page_range start_page end_page total_pages w).2 =
  (validate_page_range start_page end_page total_pages w').2.
Proof.
  unfold validate_page_range.
  by repeat (case_match; try done).
Qed.

(** The checks pass only on a range within the document. *)
Lemma validate_page_range_within (start_page end_page total_pages : Z) (w : world) :
  (∃ exc, (validate_page_range start_page end_page total_pages w).2 = Raise exc) ∨
  ((1 ≤ start_page ≤ end_page ∧ end_page ≤ total_pages)%Z ∧
   (validate_page_range start_page end_page total_pages w).2 = Ok tt).
Proof.
  unfold validate_page_range, raise, mret, M_ret.
  destruct (Z.ltb_spec start_page 1); [left; by eexists|].
  destruct (Z.ltb_spec end_page 1); [left; by eexists|].
  cbn [orb]. destruct (Z.gtb_spec start_page end_page); [left; by eexists|].
  destruct (Z.gtb_spec end_page total_pages); [left; by eexists|].
  right. split; [lia|done].
Qed.

Lemma split_pdf_source_missing (input_file : string) (start_page end_page : Z)
    (output_path : string) (w : world) :
  fs w !! abspath P input_file = None →
  split_pdf P input_file start_page end_page output_path w =
  (World (fs w) (heap w) (trace w ++ [QueryExists input_file]),
   Raise (Exn FileNotFoundError ("Source file not found: " +:+ input_file))).
Proof. intros Hmiss. unfold split_pdf. run. done. Qed.

(** The source exists but does not open as a PDF. *)
Lemma split_pdf_source_unreadable (input_file : string) (start_page end_page : Z)
    (output_path : string) (w : world) (n : node) :
  fs w !! abspath P input_file = Some n →
  (∀ pages, n ≠ RegularFile (PdfData pages)) →
  ∃ exc,
    split_pdf P input_file start_page end_page output_path w =
    (World (fs w) (heap w) (trace w ++ [QueryExists input_file; OpenFile input_file]),
     wrapped "Failed to split PDF: " (Raise exc)).
Proof.
  intros Hn Hnot. unfold split_pdf.
  destruct n as [|[d|d|b]]; [| by destruct (Hnot d) | |];
    eexists; run; settle.
Qed.

(** The source opens: the range checks decide, then the output directory,
    then the write. *)
Lemma split_pdf_on_pdf (input_file : string) (start_page end_page : Z)
    (output_path : string) (w : world) (pages : list page) :
  pdf_at P (fs w) input_file pages →
  split_pdf P input_file start_page end_page output_path w =
  match (validate_page_range start_page end_page (Z.of_nat (length pages)) w).2 with
  | Raise exc =>
      (World (fs w) (heap w) (trace w ++ [QueryExists input_file; OpenFile input_file]),
       wrapped "Failed to split PDF: " (Raise exc))
  | Ok _ =>
      let part := pages_between pages start_page end_page in
      if decide (output_dir_exists P (fs w) output_path)
      then
        (World (write_effect P output_path (PdfData part)
                  (save_verdict P (fs w) part output_path) (fs w)).1
               (heap w)
               (trace w ++ [QueryExists input_file; OpenFile input_file;
                            QueryIsDir (output_dir_of P output_path); WriteFile output_path]),
         wrapped "Failed to split PDF: "
           (write_effect P output_path (PdfData part)
              (save_verdict P (fs w) part output_path) (fs w)).2)
      else
        (World (fs w) (heap w)
               (trace w ++ [QueryExists input_file; OpenFile input_file;
                            QueryIsDir (output_dir_of P output_path)]),
         wrapped "Failed to split PDF: "
           (Raise (Exn FileNotFoundError
                       ("Output directory does not exist: " +:+
                        output_dir_of P output_path))))
  end.
Proof.
  unfold pdf_at. intros Hsrc. destruct w as [files hp tr]. cbn [fs heap trace] in *.
  unfold split_pdf. run.
  set (w1 := World files (<[fresh (dom hp) := Document pages]> hp)
                   ((tr ++ [QueryExists input_file]) ++ [OpenFile input_file])).
  rewrite (validate_page_range_pure _ _ _ w1).
  rewrite (validate_page_range_any_world _ _ _ w1 (World files hp tr)).
  destruct (validate_page_range_within start_page end_page (Z.of_nat (length pages))
              (World files hp tr)) as [[exc ->]|[Hrange ->]]; subst w1.
  - run. settle.
  - pose proof (fresh_handle_ne _ _ _
                  (lookup_insert_eq hp (fresh (dom hp)) (Document pages))) as Hne.
    run. rewrite page_slice_range by lia.
    change (take _ (drop _ pages)) with (pages_between pages start_page end_page).
    run. unfold output_dir_exists. case_decide as Hdir.
    + run.
      destruct (write_effect P output_path
                  (PdfData (pages_between pages start_page end_page))
                  (save_verdict P files (pages_between pages start_page end_page)
                     output_path) files) as [files' [[]|e]];
        run; settle.
    + run. settle.
Qed.

(** ** [pdf_to_docx] *)

Lemma pdf_to_docx_source_missing (input_file output_path : string) (w : world) :
  fs w !! abspath P input_file = None →
  pdf_to_docx P input_file output_path w =
  (World (fs w) (heap w) (trace w ++ [QueryExists input_file]),
   Raise (Exn FileNotFoundError ("Source file not found: " +:+ input_file))).
Proof. intros Hmiss. unfold pdf_to_docx. run. done. Qed.

Lemma pdf_to_docx_no_output_dir (input_file output_path : string) (w : world) (n : node) :
  fs w !! abspath P input_file = Some n →
  ¬ output_dir_exists P (fs w) output_path →
  pdf_to_docx P input_file output_path w =
  (World (fs w) (heap w)
         (trace w ++ [QueryExists input_file; QueryIsDir (output_dir_of P output_path)]),
   wrapped "Failed to convert PDF to DOCX: "
     (Raise (Exn FileNotFoundError
                 ("Output directory does not exist: " +:+
                  output_dir_of P output_path)))).
Proof.
  unfold output_dir_exists. intros Hn Hdir. unfold pdf_to_docx. run. settle.
Qed.

(** The source exists, the output directory is there, but the source does
    not open as a PDF. *)
Lemma pdf_to_docx_source_unreadable (input_file output_path : string) (w : world)
    (n : node) :
  fs w !! abspath P input_file = Some n →
  (∀ pages, n ≠ RegularFile (PdfData pages)) →
  output_dir_exists P (fs w) output_path →
  ∃ exc,
    pdf_to_docx P input_file output_path w =
    (World (fs w) (heap w)
           (trace w ++ [QueryExists input_file; QueryIsDir (output_dir_of P output_path);
                        OpenFile input_file]),
     wrapped "Failed to convert PDF to DOCX: " (Raise exc)).
Proof.
  unfold output_dir_exists. intros Hn Hnot Hdir. unfold pdf_to_docx.
  destruct n as [|[d|d|b]]; [| by destruct (Hnot d) | |];
    eexists; run; settle.
Qed.

(** The source opens and the output directory is there: the converter is
    closed when the conversion returns, and stays open when it raises. *)
Lemma pdf_to_docx_converts (input_file output_path : string) (w : world)
    (pages : list page) :
  pdf_at P (fs w) input_file pages →
  output_dir_exists P (fs w) output_path →
  pdf_to_docx P input_file output_path w =
  let eff := write_effect P output_path (DocxData pages)
               (convert_verdict P (fs w) pages output_path) (fs w) in
  let tr := trace w ++ [QueryExists input_file; QueryIsDir (output_dir_of P output_path);
                        OpenFile input_file; WriteFile output_path] in
  match eff.2 with
  | Ok _ => (World eff.1 (heap w) tr, Ok tt)
  | Raise exc =>
      (World eff.1 (<[fresh (dom (heap w)) := PdfConverter pages]> (heap w)) tr,
       wrapped "Failed to convert PDF to DOCX: " (Raise exc))
  end.
Proof.
  unfold pdf_at, output_dir_exists. intros Hsrc Hdir.
  destruct w as [files hp tr]. cbn [fs heap trace] in *.
  unfold pdf_to_docx. run.
  destruct (write_effect P output_path (DocxData pages)
              (convert_verdict P files pages output_path) files) as [files' [[]|e]];
    run; settle.
Qed.

(** ** The write itself *)

(** At a path that is not a directory the platform alone decides. *)
Lemma save_verdict_not_directory (files : gmap string node) (pages : list page)
    (path : string) :
  not_a_directory P files path →
  save_verdict P files pages path = save_outcome P pages path.
Proof.
  unfold not_a_directory, save_verdict. intros Hnd.
  by destruct (files !! abspath P path) as [[|c]|].
Qed.

Lemma convert_verdict_not_directory (files : gmap string node) (pages : list page)
    (path : string) :
  not_a_directory P files path →
  convert_verdict P files pages path = convert_outcome P pages path.
Proof.
  unfold not_a_directory, convert_verdict. intros Hnd.
  by destruct (files !! abspath P path) as [[|c]|].
Qed.
End Runs.

(** ** Validation of the page range *)

Lemma range_errors_distinct (end_page total_pages : Z) :
  page_numbers_below_one ≠ start_after_end ∧
  page_numbers_below_one ≠ end_exceeds_count end_page total_pages ∧
  start_after_end ≠ end_exceeds_count end_page total_pages.
Proof. repeat split; intros [=]. Qed.

(** The outcome of the checks, by the first condition that holds. *)
Lemma validate_page_range_cases (start_page end_page total_pages : Z) (w : world) :
  let outcome := (validate_page_range start_page end_page total_pages w).2 in
  ((start_page < 1 ∨ end_page < 1)%Z ∧ outcome = Raise page_numbers_below_one) ∨
  ((1 ≤ start_page ∧ 1 ≤ end_page ∧ end_page < start_page)%Z ∧
   outcome = Raise start_after_end) ∨
  ((1 ≤ start_page ≤ end_page ∧ total_pages < end_page)%Z ∧
   outcome = Raise (end_exceeds_count end_page total_pages)) ∨
  ((1 ≤ start_page ≤ end_page ∧ end_page ≤ total_pages)%Z ∧ outcome = Ok tt).
Proof.
  unfold validate_page_range, raise, mret, M_ret.
  destruct (Z.ltb_spec start_page 1); [left; split; [lia|done]|].
  destruct (Z.ltb_spec end_page 1); [left; split; [lia|done]|].
  cbn [orb]. destruct (Z.gtb_spec start_page end_page);
    [right; left; split; [lia|done]|].
  destruct (Z.gtb_spec end_page total_pages).
  - right; right; left. split; [lia|done].
  - right; right; right. split; [lia|done].
Qed.

(** How [split_pdf] surfaces a failed range check: wrapped, with no call
    beyond the two that open the source. *)
Lemma split_pdf_range_rejected (P : platform) (input_file : string)
    (start_page end_page : Z) (output_path : string) (w : world) (pages : list page)
    (exc : exn) :
  pdf_at P (fs w) input_file pages →
  (validate_page_range start_page end_page (Z.of_nat (length pages)) w).2 = Raise exc →
  split_pdf P input_file start_page end_page output_path w =
  (World (fs w) (heap w) (trace w ++ [QueryExists input_file; OpenFile input_file]),
   Raise (ExnFrom RuntimeError ("Failed to split PDF: " +:+ str exc) exc)).
Proof.
  intros Hsrc Hv. rewrite (split_pdf_on_pdf P _ _ _ _ _ pages) by done.
  by rewrite Hv.
Qed.

(** C4. The range checks of [split_pdf] run in a fixed order and report the
    first that applies: "Page numbers must be >= 1." (InvalidRange) exactly
    when start < 1 or end < 1; otherwise "Start page cannot be greater than
    end page." (InvalidRange) exactly when start > end; otherwise "End page
    .. exceeds document page count .." (RangeExceedsDocument) exactly when
    end > total; otherwise the range is accepted.  So start = 0, end = 0 on
    five pages is reported as non-positive, not as exceeding the document,
    and start > end is reported as invalid whatever the total.  The checks
    change nothing in the world, and on a source that opens [split_pdf]
    fails with the error the checks raise, as the cause of its own. *)
Theorem validate_page_range_order (start_page end_page total_pages : Z) (w : world) :
  let outcome := (validate_page_range start_page end_page total_pages w).2 in
  (validate_page_range start_page end_page total_pages w).1 = w ∧
  (outcome = Raise page_numbers_below_one ↔ (start_page < 1 ∨ end_page < 1)%Z) ∧
  (outcome = Raise start_after_end ↔
     (1 ≤ start_page ∧ 1 ≤ end_page ∧ end_page < start_page)%Z) ∧
  (outcome = Raise (end_exceeds_count end_page total_pages) ↔
     (1 ≤ start_page ≤ end_page ∧ total_pages < end_page)%Z) ∧
  (outcome = Ok tt ↔ (1 ≤ start_page ≤ end_page ∧ end_page ≤ total_pages)%Z) ∧
  ((end_page < start_page)%Z →
     outcome = Raise page_numbers_below_one ∨ outcome = Raise start_after_end) ∧
  (validate_page_range 0 0 5 w).2 = Raise page_numbers_below_one ∧
  (∀ (P : platform) (input_file output_path : string) (pages : list page) (exc : exn),
     pdf_at P (fs w) input_file pages →
     total_pages = Z.of_nat (length pages) →
     outcome = Raise exc →
     ∃ surfaced,
       (split_pdf P input_file start_page end_page output_path w).2 = Raise surfaced ∧
       reports surfaced exc).
Proof.
  pose proof (range_errors_distinct end_page total_pages) as (H12 & H13 & H23).
  pose proof (validate_page_range_cases start_page end_page total_pages w) as Hcases.
  cbv zeta in *. split; [by rewrite validate_page_range_pure|].
  do 6 (split; [destruct Hcases as [[Hc Ho]|[[Hc Ho]|[[Hc Ho]|[Hc Ho]]]];
                rewrite ?Ho; try split; intros; try done; try lia; try congruence; auto|]).
  intros P input_file output_path pages exc Hsrc -> Hexc.
  rewrite (split_pdf_range_rejected P _ _ _ _ _ pages exc) by done.
  eexists. split; [done|]. by right.
Qed.

Lemma validate_page_range_order_5_3 :
  (validate_page_range 5 3 10 home).2 = Raise start_after_end ∧
  ∃ surfaced,
    (split_pdf (posix "/home/u") "doc.pdf" 5 3 "out.pdf" home).2 = Raise surfaced ∧
    reports surfaced start_after_end.
Proof.
  pose proof (validate_page_range_order 5 3 10 home)
    as (_ & _ & Hafter & _ & _ & _ & _ & Hsplit).
  cbv zeta in *. split.
  - apply Hafter. lia.
  - apply (Hsplit (posix "/home/u") "doc.pdf" "out.pdf"
             ["p1"; "p2"; "p3"; "p4"; "p5"; "p6"; "p7"; "p8"; "p9"; "p10"]).
    + reflexivity.
    + reflexivity.
    + apply Hafter. lia.
Defined.

(** The two rejected ranges of the ten-page example: 5..3 and 1..11. *)
Example split_pdf_rejects_5_3 :
  split_pdf (posix "/home/u") "doc.pdf" 5 3 "out.pdf" home =
  (World (fs home) (heap home) [QueryExists "doc.pdf"; OpenFile "doc.pdf"],
   Raise (ExnFrom RuntimeError
            "Failed to split PDF: Start page cannot be greater than end page."
            start_after_end)).
Proof. by vm_compute. Qed.

Example split_pdf_rejects_1_11 :
  split_pdf (posix "/home/u") "doc.pdf" 1 11 "out.pdf" home =
  (World (fs home) (heap home) [QueryExists "doc.pdf"; OpenFile "doc.pdf"],
   Raise (ExnFrom RuntimeError
            "Failed to split PDF: End page 11 exceeds document page count 10."
            (end_exceeds_count 11 10))).
Proof. by vm_compute. Qed.

(** A range within a source that opens, and the output directory there:
    [split_pdf] ends with the write of exactly those pages. *)
Lemma split_pdf_accepts (P : platform) (input_file : string)
    (start_page end_page : Z) (output_path : string) (w : world) (pages : list page) :
  pdf_at P (fs w) input_file pages →
  (1 ≤ start_page ≤ end_page)%Z → (end_page ≤ Z.of_nat (length pages))%Z →
  output_dir_exists P (fs w) output_path →
  not_a_directory P (fs w) output_path →
  save_outcome P (pages_between pages start_page end_page) output_path = Completes →
  split_pdf P input_file start_page end_page output_path w =
  (World (<[abspath P output_path :=
              RegularFile (PdfData (pages_between pages start_page end_page))]> (fs w))
         (heap w)
         (trace w ++ [QueryExists input_file; OpenFile input_file;
                      QueryIsDir (output_dir_of P output_path); WriteFile output_path]),
   Ok tt).
Proof.
  intros Hsrc Hse Het Hdir Hnd Hsave.
  rewrite (split_pdf_on_pdf P _ _ _ _ _ pages) by done.
  destruct (validate_page_range_cases start_page end_page
              (Z.of_nat (length pages)) w) as [[Hc _]|[[Hc _]|[[Hc _]|[_ ->]]]];
    [lia..|].
  cbv zeta. rewrite decide_True by done.
  by rewrite save_verdict_not_directory, Hsave.
Qed.

(** Every file opens and has pages, the output directory is there and the
    save goes through. *)
Lemma merge_pdfs_accepts (P : platform) (input_files : list string)
    (docs : list (list page)) (output_path : string) (w : world) :
  input_files ≠ [] →
  Forall2 (pdf_at P (fs w)) input_files docs →
  Forall (λ d, d ≠ []) docs →
  output_dir_exists P (fs w) output_path →
  not_a_directory P (fs w) output_path →
  save_outcome P (concat docs) output_path = Completes →
  merge_pdfs P input_files output_path w =
  (World (<[abspath P output_path := RegularFile (PdfData (concat docs))]> (fs w))
         (heap w)
         (trace w ++ probes input_files ++
          [QueryIsDir (output_dir_of P output_path); WriteFile output_path]),
   Ok tt).
Proof.
  intros Hne Hall Hpages Hdir Hnd Hsave.
  rewrite (merge_pdfs_writes P _ docs) by done.
  by rewrite save_verdict_not_directory, Hsave.
Qed.

(** ** [merge_pdfs] on an empty list *)

(** C8. With an empty list of input files [merge_pdfs] raises the
    [ValueError] of its first line whatever the output path, and the world
    is returned as it was: no handle is opened, nothing is written, and the
    log of file-system calls has not grown. *)
Theorem merge_pdfs_empty_input (P : platform) (output_path : string) (w : world) :
  merge_pdfs P [] output_path w =
  (w, Raise (Exn ValueError "there is no input files provided to merge.")).
Proof. reflexivity. Qed.

(** ** Extraction of a page range *)

(** C5. On a source that opens, with 1 <= start <= end <= page count, the
    output directory present and the save going through, [split_pdf]
    succeeds and writes at the output path exactly the pages start..end of
    the source (1-based, inclusive), in source order: end - start + 1 pages,
    the i-th of which is source page start + i; for 1..1 that is the first
    page alone.  Nothing else in the file system changes and no handle stays
    open. *)
Theorem split_pdf_extracts (P : platform) (input_file : string)
    (start_page end_page : Z) (output_path : string) (w : world) (pages : list page) :
  pdf_at P (fs w) input_file pages →
  (1 ≤ start_page ≤ end_page)%Z → (end_page ≤ Z.of_nat (length pages))%Z →
  output_dir_exists P (fs w) output_path →
  not_a_directory P (fs w) output_path →
  save_outcome P (pages_between pages start_page end_page) output_path = Completes →
  let part := pages_between pages start_page end_page in
  split_pdf P input_file start_page end_page output_path w =
  (World (<[abspath P output_path := RegularFile (PdfData part)]> (fs w))
         (heap w)
         (trace w ++ [QueryExists input_file; OpenFile input_file;
                      QueryIsDir (output_dir_of P output_path); WriteFile output_path]),
   Ok tt) ∧
  Z.of_nat (length part) = (end_page - start_page + 1)%Z ∧
  (∀ i : nat, (i < length part)%nat →
     part !! i = pages !! (Z.to_nat (start_page - 1) + i)%nat) ∧
  (start_page = 1%Z → end_page = 1%Z → part = take 1 pages).
Proof.
  intros Hsrc Hse Het Hdir Hnd Hsave part. subst part.
  split; [by apply split_pdf_accepts|]. unfold pages_between. repeat split.
  - rewrite length_take, length_drop. lia.
  - intros i Hi. rewrite length_take in Hi.
    rewrite lookup_take_lt by lia. apply lookup_drop.
  - intros -> ->. by rewrite drop_0.
Qed.

Lemma split_pdf_extracts_first_page :
  split_pdf (posix "/home/u") "doc.pdf" 1 1 "first.pdf" home =
  (World (<["/home/u/first.pdf" := RegularFile (PdfData ["p1"])]> (fs home))
         (heap home)
         (trace home ++ [QueryExists "doc.pdf"; OpenFile "doc.pdf"; QueryIsDir "/home/u";
                         WriteFile "first.pdf"]),
   Ok tt).
Proof.
  refine (proj1 (split_pdf_extracts (posix "/home/u") "doc.pdf" 1 1 "first.pdf" home
                   ["p1"; "p2"; "p3"; "p4"; "p5"; "p6"; "p7"; "p8"; "p9"; "p10"]
                   _ _ _ _ _ _)).
  - reflexivity.
  - lia.
  - simpl; lia.
  - reflexivity.
  - vm_compute; discriminate.
  - reflexivity.
Defined.

(** C10. On a source without pages [split_pdf] fails for every start and
    end: one of the three range checks always applies (end >= 1 already
    exceeds a page count of 0), the failure is raised before the output
    directory is looked at, nothing is written and the file system is as it
    was. *)
Theorem split_pdf_blank_document (P : platform) (input_file : string)
    (start_page end_page : Z) (output_path : string) (w : world) :
  pdf_at P (fs w) input_file [] →
  ∃ exc,
    (exc = page_numbers_below_one ∨ exc = start_after_end ∨
     exc = end_exceeds_count end_page 0) ∧
    split_pdf P input_file start_page end_page output_path w =
    (World (fs w) (heap w) (trace w ++ [QueryExists input_file; OpenFile input_file]),
     Raise (ExnFrom RuntimeError ("Failed to split PDF: " +:+ str exc) exc)).
Proof.
  intros Hsrc.
  destruct (validate_page_range_cases start_page end_page 0 w)
    as [[_ Hv]|[[_ Hv]|[[_ Hv]|[Hc _]]]]; [..|lia];
    eexists; (split; [|by apply (split_pdf_range_rejected P _ _ _ _ _ [])]); auto.
Qed.

Lemma split_pdf_blank_document_any_range :
  ∃ exc,
    (exc = page_numbers_below_one ∨ exc = start_after_end ∨
     exc = end_exceeds_count 1 0) ∧
    split_pdf (posix "/home/u") "blank.pdf" 1 1 "out.pdf" home =
    (World (fs home) (heap home)
           (trace home ++ [QueryExists "blank.pdf"; OpenFile "blank.pdf"]),
     Raise (ExnFrom RuntimeError ("Failed to split PDF: " +:+ str exc) exc)).
Proof.
  apply (split_pdf_blank_document (posix "/home/u") "blank.pdf" 1 1 "out.pdf" home).
  reflexivity.
Defined.

(** ** Merging *)

(** C6 (as amended). On a non-empty list of files that all open and have
    at least one page each, with the output directory present and the save
    going through, [merge_pdfs] succeeds and writes at the output path the
    pages of every file in list order, a file listed twice contributing its
    pages twice; nothing else in the file system changes and no handle
    stays open. *)
Theorem merge_pdfs_concatenates (P : platform) (input_files : list string)
    (docs : list (list page)) (output_path : string) (w : world) :
  input_files ≠ [] →
  Forall2 (pdf_at P (fs w)) input_files docs →
  Forall (λ d, d ≠ []) docs →
  output_dir_exists P (fs w) output_path →
  not_a_directory P (fs w) output_path →
  save_outcome P (concat docs) output_path = Completes →
  merge_pdfs P input_files output_path w =
  (World (<[abspath P output_path := RegularFile (PdfData (concat docs))]> (fs w))
         (heap w)
         (trace w ++ probes input_files ++
          [QueryIsDir (output_dir_of P output_path); WriteFile output_path]),
   Ok tt).
Proof. apply merge_pdfs_accepts. Qed.

Lemma merge_pdfs_concatenates_A_B :
  merge_pdfs (posix "/home/u") ["A.pdf"; "B.pdf"] "out.pdf" home =
  (World (<["/home/u/out.pdf" := RegularFile (PdfData ["a1"; "a2"; "a3"; "b1"; "b2"])]>
            (fs home))
         (heap home)
         (trace home ++ [QueryExists "A.pdf"; OpenFile "A.pdf";
                         QueryExists "B.pdf"; OpenFile "B.pdf";
                         QueryIsDir "/home/u"; WriteFile "out.pdf"]),
   Ok tt) ∧
  merge_pdfs (posix "/home/u") ["B.pdf"; "A.pdf"; "B.pdf"] "out.pdf" home =
  (World (<["/home/u/out.pdf" :=
              RegularFile (PdfData ["b1"; "b2"; "a1"; "a2"; "a3"; "b1"; "b2"])]>
            (fs home))
         (heap home)
         (trace home ++ [QueryExists "B.pdf"; OpenFile "B.pdf";
                         QueryExists "A.pdf"; OpenFile "A.pdf";
                         QueryExists "B.pdf"; OpenFile "B.pdf";
                         QueryIsDir "/home/u"; WriteFile "out.pdf"]),
   Ok tt).
Proof.
  split.
  - apply (merge_pdfs_concatenates (posix "/home/u") ["A.pdf"; "B.pdf"]
             [["a1"; "a2"; "a3"]; ["b1"; "b2"]] "out.pdf" home).
    + discriminate.
    + repeat constructor.
    + repeat constructor; discriminate.
    + reflexivity.
    + vm_compute; discriminate.
    + reflexivity.
  - apply (merge_pdfs_concatenates (posix "/home/u") ["B.pdf"; "A.pdf"; "B.pdf"]
             [["b1"; "b2"]; ["a1"; "a2"; "a3"]; ["b1"; "b2"]] "out.pdf" home).
    + discriminate.
    + repeat constructor.
    + repeat constructor; discriminate.
    + reflexivity.
    + vm_compute; discriminate.
    + reflexivity.
Defined.

(** C6 does not hold as stated: a file that exists and opens but has no
    pages makes [insert_pdf] raise.  Merging A.pdf and blank.pdf to a path
    that could be written fails at blank.pdf, and nothing is written. *)
Lemma merge_pdfs_fails_on_blank_input :
  pdf_at (posix "/home/u") (fs home) "A.pdf" ["a1"; "a2"; "a3"] ∧
  pdf_at (posix "/home/u") (fs home) "blank.pdf" [] ∧
  output_dir_exists (posix "/home/u") (fs home) "out.pdf" ∧
  fs home !! "/home/u/out.pdf" = None ∧
  merge_pdfs (posix "/home/u") ["A.pdf"; "blank.pdf"] "out.pdf" home =
  (World (fs home) (heap home)
         [QueryExists "A.pdf"; OpenFile "A.pdf";
          QueryExists "blank.pdf"; OpenFile "blank.pdf"],
   Raise (ExnFrom RuntimeError "Failed to merge PDFs: code=7: malformed page tree"
            malformed_page_tree)).
Proof. repeat split; vm_compute; reflexivity. Qed.

(** A path that names a directory without entries can be merged to: the
    save removes the directory and writes the file in its place. *)
Example merge_pdfs_over_empty_directory :
  fs home !! "/home/u/archive" = Some Directory ∧
  (merge_pdfs (posix "/home/u") ["A.pdf"] "archive" home).2 = Ok tt ∧
  fs (merge_pdfs (posix "/home/u") ["A.pdf"] "archive" home).1 !! "/home/u/archive" =
  Some (RegularFile (PdfData ["a1"; "a2"; "a3"])).
Proof. repeat split; vm_compute; reflexivity. Qed.

(** C1, at its failing input.  When the files listed before the first
    non-existent path all open and have pages, [merge_pdfs] stops at that
    path, with no call for the files after it and no write, so that no
    output file is created - but what it raises is a [RuntimeError]: the
    [FileNotFoundError] "File not found: <path>" of line 39 is raised
    inside the [try] block and leaves only as the cause of "Failed to merge
    PDFs: ..".  For the same missing path [split_pdf] and [pdf_to_docx]
    raise the [FileNotFoundError] itself. *)
Theorem merge_pdfs_wraps_file_not_found (P : platform) (before : list string)
    (docs : list (list page)) (path : string) (after : list string)
    (output_path : string) (w : world) :
  Forall2 (pdf_at P (fs w)) before docs →
  Forall (λ d, d ≠ []) docs →
  fs w !! abspath P path = None →
  let not_found := Exn FileNotFoundError ("File not found: " +:+ path) in
  merge_pdfs P (before ++ path :: after) output_path w =
  (World (fs w) (heap w) (trace w ++ probes before ++ [QueryExists path]),
   Raise (ExnFrom RuntimeError ("Failed to merge PDFs: " +:+ str not_found) not_found)) ∧
  exn_class_of (merge_pdfs P (before ++ path :: after) output_path w).2 =
  Some RuntimeError ∧
  no_write (probes before ++ [QueryExists path]) ∧
  (∀ start_page end_page,
     (split_pdf P path start_page end_page output_path w).2 =
     Raise (Exn FileNotFoundError ("Source file not found: " +:+ path))) ∧
  (pdf_to_docx P path output_path w).2 =
  Raise (Exn FileNotFoundError ("Source file not found: " +:+ path)).
Proof.
  intros Hall Hpages Hmiss not_found.
  rewrite (merge_pdfs_stops_at_missing P before docs) by done.
  split; [done|]. split; [done|]. split; [|split].
  - apply Forall_app. split; [apply no_write_probes|by repeat constructor].
  - intros. by rewrite split_pdf_source_missing.
  - by rewrite pdf_to_docx_source_missing.
Qed.

Lemma merge_pdfs_wraps_file_not_found_home :
  merge_pdfs (posix "/home/u") ["missing.pdf"] "out.pdf" home =
  (World (fs home) (heap home) (trace home ++ [QueryExists "missing.pdf"]),
   Raise (ExnFrom RuntimeError "Failed to merge PDFs: File not found: missing.pdf"
            (Exn FileNotFoundError "File not found: missing.pdf"))) ∧
  exn_class_of (merge_pdfs (posix "/home/u") ["missing.pdf"] "out.pdf" home).2 =
  Some RuntimeError ∧
  no_write [QueryExists "missing.pdf"] ∧
  (∀ start_page end_page,
     (split_pdf (posix "/home/u") "missing.pdf" start_page end_page "out.pdf" home).2 =
     Raise (Exn FileNotFoundError "Source file not found: missing.pdf")) ∧
  (pdf_to_docx (posix "/home/u") "missing.pdf" "out.pdf" home).2 =
  Raise (Exn FileNotFoundError "Source file not found: missing.pdf").
Proof.
  apply (merge_pdfs_wraps_file_not_found (posix "/home/u") [] [] "missing.pdf" []
           "out.pdf" home).
  - constructor.
  - constructor.
  - reflexivity.
Defined.

(** The missing path is reported only if the merge gets to it: a file that
    exists but does not open, listed before the missing one, is what
    [merge_pdfs] fails on; the missing path is never looked at, and neither
    the exception nor its cause is a [FileNotFoundError]. *)
Example merge_pdfs_unreadable_before_missing :
  fs home !! "/home/u/missing.pdf" = None ∧
  (merge_pdfs (posix "/home/u") ["broken.pdf"; "missing.pdf"] "out.pdf" home).1 =
  World (fs home) (heap home) [QueryExists "broken.pdf"; OpenFile "broken.pdf"] ∧
  exn_class_of
    (merge_pdfs (posix "/home/u") ["broken.pdf"; "missing.pdf"] "out.pdf" home).2 =
  Some RuntimeError ∧
  ¬ ∃ exc msg,
      (merge_pdfs (posix "/home/u") ["broken.pdf"; "missing.pdf"] "out.pdf" home).2 =
      Raise exc ∧
      reports exc (Exn FileNotFoundError msg).
Proof.
  split; [reflexivity|]. split; [by vm_compute|]. split; [by vm_compute|].
  intros (exc & msg & Hres & Hexc). vm_compute in Hres.
  injection Hres as <-. unfold reports in Hexc. cbn in Hexc.
  destruct Hexc as [?|?]; discriminate.
Qed.

(** ** What a failure leaves behind *)

Lemma pdf_or_not (n : node) :
  (∃ pages, n = RegularFile (PdfData pages)) ∨ (∀ pages, n ≠ RegularFile (PdfData pages)).
Proof. destruct n as [|[pages|pages|bytes]]; eauto. Qed.

Lemma atomic_without_write (P : platform) (output_path : string)
    (handed : content → write_outcome → Prop) (w : world)
    (hp : gmap nat resource) (evs : list event) (exc : exn) :
  no_write evs →
  atomic_but_for_aborts P output_path handed w
    (World (fs w) hp (trace w ++ evs), Raise exc).
Proof. intros Hq. exists evs. split; [done|]. left. eauto. Qed.

Lemma atomic_after_write (P : platform) (output_path prefix : string)
    (handed : content → write_outcome → Prop) (whole : content)
    (o : write_outcome) (w : world) (hp : gmap nat resource) (before : list event) :
  no_write before →
  handed whole o →
  atomic_but_for_aborts P output_path handed w
    (World (write_effect P output_path whole o (fs w)).1 hp
           (trace w ++ before ++ [WriteFile output_path]),
     wrapped prefix (write_effect P output_path whole o (fs w)).2).
Proof.
  intros Hq Ho. exists (before ++ [WriteFile output_path]). split; [done|].
  right. exists before, whole, o. split; [done|]. split; [done|].
  split; [done|]. destruct o; cbn; eauto.
Qed.

Lemma merge_pdfs_atomic (P : platform) (input_files : list string)
    (output_path : string) (w : world) :
  atomic_but_for_aborts P output_path (merge_hands P (fs w) input_files output_path) w
    (merge_pdfs P input_files output_path w).
Proof.
  destruct input_files as [|path rest].
  - exists []. cbn. rewrite app_nil_r. split; [done|]. left.
    split; [constructor|]. eauto.
  - destruct (merge_pdfs_outcome P (path :: rest) output_path w)
      as [(evs & exc & -> & Hq)|(evs & docs & Hdocs & Hpages & Hdir & Hq & ->)];
      [done|..].
    + by apply atomic_without_write.
    + apply (atomic_after_write P _ "Failed to merge PDFs: "); [done|].
      split; [done|]. split; [done|]. by exists docs.
Qed.

Lemma split_pdf_atomic (P : platform) (input_file : string) (start_page end_page : Z)
    (output_path : string) (w : world) :
  atomic_but_for_aborts P output_path
    (split_hands P (fs w) input_file start_page end_page output_path) w
    (split_pdf P input_file start_page end_page output_path w).
Proof.
  destruct (fs w !! abspath P input_file) as [n|] eqn:Hsrc.
  - destruct (pdf_or_not n) as [[pages ->]|Hnot].
    + rewrite (split_pdf_on_pdf P _ _ _ _ _ pages) by done.
      destruct (validate_page_range_within start_page end_page
                  (Z.of_nat (length pages)) w) as [[exc ->]|[Hrange ->]];
        [apply atomic_without_write; by repeat constructor|].
      cbv zeta. case_decide; [|apply atomic_without_write; by repeat constructor].
      apply (atomic_after_write P _ "Failed to split PDF: " _ _ _ w (heap w)
               [QueryExists input_file; OpenFile input_file;
                QueryIsDir (output_dir_of P output_path)]);
        [by repeat constructor|]. split; [done|]. by exists pages.
    + destruct (split_pdf_source_unreadable P input_file start_page end_page
                  output_path w n Hsrc) as [exc ->]; [naive_solver|].
      apply atomic_without_write. by repeat constructor.
  - rewrite split_pdf_source_missing by done.
    apply atomic_without_write. by repeat constructor.
Qed.

Lemma pdf_to_docx_atomic (P : platform) (input_file output_path : string) (w : world) :
  atomic_but_for_aborts P output_path (convert_hands P (fs w) input_file output_path) w
    (pdf_to_docx P input_file output_path w).
Proof.
  destruct (fs w !! abspath P input_file) as [n|] eqn:Hsrc.
  - destruct (decide (output_dir_exists P (fs w) output_path)) as [Hdir|Hdir].
    + destruct (pdf_or_not n) as [[pages ->]|Hnot].
      * rewrite (pdf_to_docx_converts P _ _ _ pages) by done. cbv zeta.
        pose proof (λ hp, atomic_after_write P output_path
                            "Failed to convert PDF to DOCX: "
                            (convert_hands P (fs w) input_file output_path)
                            (DocxData pages)
                            (convert_verdict P (fs w) pages output_path) w hp
                            [QueryExists input_file;
                             QueryIsDir (output_dir_of P output_path);
                             OpenFile input_file]
                            ltac:(by repeat constructor)
                            ltac:(split; [done|by exists pages])) as Hatomic.
        destruct (write_effect P output_path (DocxData pages)
                    (convert_verdict P (fs w) pages output_path) (fs w)).2 as [[]|exc];
          apply Hatomic.
      * destruct (pdf_to_docx_source_unreadable P input_file output_path w n Hsrc)
          as [exc ->]; [done..|].
        apply atomic_without_write. by repeat constructor.
    + rewrite (pdf_to_docx_no_output_dir P _ _ _ n) by done.
      apply atomic_without_write. by repeat constructor.
  - rewrite pdf_to_docx_source_missing by done.
    apply atomic_without_write. by repeat constructor.
Qed.

(** C3 (as amended). Each operation writes at most once, only at the
    output path, and as the last thing it does.  When it fails before its
    write (empty list, missing or unreadable source, rejected range,
    missing output directory), no write is among its calls and the file
    system is as it was.  When it gets to its write, what the library
    makes of that write is what the file system shows afterwards: if the
    write completes, the operation succeeds and the file system differs
    from the one it started in exactly by the file written at the output
    path; if the library refuses the write, the operation fails and the
    file system is as it was; if the library breaks the write off, the
    operation fails, the engine removes nothing, and what the library left
    at the output path is still there. *)
Theorem operations_atomic_but_for_aborts (P : platform) (output_path : string)
    (w : world) :
  (∀ input_files,
     atomic_but_for_aborts P output_path (merge_hands P (fs w) input_files output_path) w
       (merge_pdfs P input_files output_path w)) ∧
  (∀ input_file start_page end_page,
     atomic_but_for_aborts P output_path
       (split_hands P (fs w) input_file start_page end_page output_path) w
       (split_pdf P input_file start_page end_page output_path w)) ∧
  (∀ input_file,
     atomic_but_for_aborts P output_path
       (convert_hands P (fs w) input_file output_path) w
       (pdf_to_docx P input_file output_path w)).
Proof.
  split; [|split]; intros.
  - apply merge_pdfs_atomic.
  - apply split_pdf_atomic.
  - apply pdf_to_docx_atomic.
Qed.

(** C3 does not hold as stated: when the save breaks off part-way, the merge
    fails and the truncated file is left at the output path, where there
    was no file before. *)
Lemma merge_pdfs_leaves_truncated_output :
  fs home !! "/home/u/out.pdf" = None ∧
  (merge_pdfs (disk_fills_at "/home/u" "out.pdf") ["A.pdf"; "B.pdf"] "out.pdf" home).2 =
  Raise (ExnFrom RuntimeError "Failed to merge PDFs: No space left on device"
           (Exn (ForeignError "OSError") "No space left on device")) ∧
  fs (merge_pdfs (disk_fills_at "/home/u" "out.pdf") ["A.pdf"; "B.pdf"] "out.pdf" home).1
    !! "/home/u/out.pdf" =
  Some (RegularFile (RawData "%PDF-1.7 (truncated)")).
Proof. repeat split; vm_compute; reflexivity. Qed.

(** ** A missing output directory *)

Lemma quiet_failure_intro (w : world) (hp : gmap nat resource) (evs : list event)
    (exc : exn) :
  no_write evs → quiet_failure w (World (fs w) hp (trace w ++ evs), Raise exc).
Proof. intros Hq. split; [by eexists|]. split; [done|]. by exists evs. Qed.

Lemma merge_pdfs_quiet_without_dir (P : platform) (input_files : list string)
    (output_path : string) (w : world) :
  ¬ output_dir_exists P (fs w) output_path →
  quiet_failure w (merge_pdfs P input_files output_path w).
Proof.
  intros Hdir. destruct input_files as [|path rest].
  - unfold merge_pdfs, raise.
    rewrite <- (world_eta w) at 2. rewrite <- (app_nil_r (trace w)).
    apply quiet_failure_intro. constructor.
  - destruct (merge_pdfs_outcome P (path :: rest) output_path w)
      as [(evs & exc & -> & Hq)|(evs & docs & _ & _ & Hyes & _)]; [done|..|done].
    by apply quiet_failure_intro.
Qed.

Lemma split_pdf_quiet_without_dir (P : platform) (input_file : string)
    (start_page end_page : Z) (output_path : string) (w : world) :
  ¬ output_dir_exists P (fs w) output_path →
  quiet_failure w (split_pdf P input_file start_page end_page output_path w).
Proof.
  intros Hdir. destruct (fs w !! abspath P input_file) as [n|] eqn:Hsrc.
  - destruct (pdf_or_not n) as [[pages ->]|Hnot].
    + rewrite (split_pdf_on_pdf P _ _ _ _ _ pages) by done.
      destruct (validate_page_range _ _ _ w).2 as [[]|exc].
      * cbv zeta. rewrite decide_False by done.
        apply quiet_failure_intro. by repeat constructor.
      * apply quiet_failure_intro. by repeat constructor.
    + destruct (split_pdf_source_unreadable P input_file start_page end_page
                  output_path w n Hsrc) as [exc ->]; [done|].
      apply quiet_failure_intro. by repeat constructor.
  - rewrite split_pdf_source_missing by done.
    apply quiet_failure_intro. by repeat constructor.
Qed.

Lemma pdf_to_docx_quiet_without_dir (P : platform) (input_file output_path : string)
    (w : world) :
  ¬ output_dir_exists P (fs w) output_path →
  quiet_failure w (pdf_to_docx P input_file output_path w).
Proof.
  intros Hdir. destruct (fs w !! abspath P input_file) as [n|] eqn:Hsrc.
  - rewrite (pdf_to_docx_no_output_dir P _ _ _ n) by done.
    apply quiet_failure_intro. by repeat constructor.
  - rewrite pdf_to_docx_source_missing by done.
    apply quiet_failure_intro. by repeat constructor.
Qed.

(** C2 (as amended). When the directory of the output path is not there,
    every operation fails without attempting a write, and the file system
    is as it was (no directory is created).  When the inputs pass what
    comes first (a non-empty list of files that open and have pages; a
    source that opens and a range within it; a source that exists), the
    failure is
    the operation's [RuntimeError] ("Failed to merge PDFs: ..", "Failed to
    split PDF: ..", "Failed to convert PDF to DOCX: ..") raised from the
    [FileNotFoundError] "Output directory does not exist: <directory>". *)
Theorem missing_output_dir_fails_before_writing (P : platform) (output_path : string)
    (w : world) :
  ¬ output_dir_exists P (fs w) output_path →
  let no_dir := Exn FileNotFoundError
                    ("Output directory does not exist: " +:+ output_dir_of P output_path) in
  (∀ input_files, quiet_failure w (merge_pdfs P input_files output_path w)) ∧
  (∀ input_file start_page end_page,
     quiet_failure w (split_pdf P input_file start_page end_page output_path w)) ∧
  (∀ input_file, quiet_failure w (pdf_to_docx P input_file output_path w)) ∧
  (∀ input_files docs,
     input_files ≠ [] → Forall2 (pdf_at P (fs w)) input_files docs →
     Forall (λ d, d ≠ []) docs →
     (merge_pdfs P input_files output_path w).2 =
     Raise (ExnFrom RuntimeError ("Failed to merge PDFs: " +:+ str no_dir) no_dir)) ∧
  (∀ input_file pages start_page end_page,
     pdf_at P (fs w) input_file pages →
     (1 ≤ start_page ≤ end_page)%Z → (end_page ≤ Z.of_nat (length pages))%Z →
     (split_pdf P input_file start_page end_page output_path w).2 =
     Raise (ExnFrom RuntimeError ("Failed to split PDF: " +:+ str no_dir) no_dir)) ∧
  (∀ input_file,
     is_Some (fs w !! abspath P input_file) →
     (pdf_to_docx P input_file output_path w).2 =
     Raise (ExnFrom RuntimeError ("Failed to convert PDF to DOCX: " +:+ str no_dir)
              no_dir)).
Proof.
  intros Hdir no_dir. split; [|split; [|split; [|split; [|split]]]].
  - intros. by apply merge_pdfs_quiet_without_dir.
  - intros. by apply split_pdf_quiet_without_dir.
  - intros. by apply pdf_to_docx_quiet_without_dir.
  - intros input_files docs Hne Hall Hpages.
    by rewrite (merge_pdfs_no_output_dir P _ docs).
  - intros input_file pages start_page end_page Hsrc Hse Het.
    rewrite (split_pdf_on_pdf P _ _ _ _ _ pages) by done.
    destruct (validate_page_range_cases start_page end_page
                (Z.of_nat (length pages)) w) as [[Hc _]|[[Hc _]|[[Hc _]|[_ ->]]]];
      [lia..|].
    cbv zeta. by rewrite decide_False.
  - intros input_file [n Hn].
    by rewrite (pdf_to_docx_no_output_dir P _ _ _ n).
Qed.

Lemma missing_output_dir_fails_before_writing_home :
  quiet_failure home (merge_pdfs (posix "/home/u") [] "/nowhere/out.pdf" home) ∧
  (merge_pdfs (posix "/home/u") ["A.pdf"; "B.pdf"] "/nowhere/out.pdf" home).2 =
  Raise (ExnFrom RuntimeError
           "Failed to merge PDFs: Output directory does not exist: /nowhere"
           (Exn FileNotFoundError "Output directory does not exist: /nowhere")) ∧
  (split_pdf (posix "/home/u") "doc.pdf" 2 4 "/nowhere/out.pdf" home).2 =
  Raise (ExnFrom RuntimeError
           "Failed to split PDF: Output directory does not exist: /nowhere"
           (Exn FileNotFoundError "Output directory does not exist: /nowhere")) ∧
  (pdf_to_docx (posix "/home/u") "doc.pdf" "/nowhere/out.docx" home).2 =
  Raise (ExnFrom RuntimeError
           "Failed to convert PDF to DOCX: Output directory does not exist: /nowhere"
           (Exn FileNotFoundError "Output directory does not exist: /nowhere")).
Proof.
  assert (¬ output_dir_exists (posix "/home/u") (fs home) "/nowhere/out.pdf") as Hpdf
    by (vm_compute; discriminate).
  assert (¬ output_dir_exists (posix "/home/u") (fs home) "/nowhere/out.docx") as Hdocx
    by (vm_compute; discriminate).
  pose proof (missing_output_dir_fails_before_writing
                (posix "/home/u") "/nowhere/out.pdf" home Hpdf)
    as (Hmerge & _ & _ & Hmerge' & Hsplit & _).
  pose proof (missing_output_dir_fails_before_writing
                (posix "/home/u") "/nowhere/out.docx" home Hdocx)
    as (_ & _ & _ & _ & _ & Hconvert).
  split; [apply Hmerge|]. split; [|split].
  - apply (Hmerge' ["A.pdf"; "B.pdf"] [["a1"; "a2"; "a3"]; ["b1"; "b2"]]).
    + discriminate.
    + repeat constructor.
    + repeat constructor; discriminate.
  - apply (Hsplit "doc.pdf" ["p1"; "p2"; "p3"; "p4"; "p5"; "p6"; "p7"; "p8"; "p9"; "p10"]).
    + reflexivity.
    + lia.
    + simpl; lia.
  - apply (Hconvert "doc.pdf"). by eexists.
Defined.

(** C2 does not hold as stated: the check of the output directory is made
    inside the [try] block of each method, so its [FileNotFoundError] is
    caught and what the caller receives is the operation's [RuntimeError],
    not a [FileNotFoundError]. *)
Lemma missing_output_dir_is_wrapped :
  fs home !! "/nowhere" = None ∧
  (∀ msg, (merge_pdfs (posix "/home/u") ["A.pdf"] "/nowhere/out.pdf" home).2 ≠
          Raise (Exn FileNotFoundError msg)) ∧
  (∀ msg, (split_pdf (posix "/home/u") "doc.pdf" 1 1 "/nowhere/out.pdf" home).2 ≠
          Raise (Exn FileNotFoundError msg)) ∧
  (∀ msg, (pdf_to_docx (posix "/home/u") "doc.pdf" "/nowhere/out.docx" home).2 ≠
          Raise (Exn FileNotFoundError msg)) ∧
  exn_class_of (merge_pdfs (posix "/home/u") ["A.pdf"] "/nowhere/out.pdf" home).2 =
  Some RuntimeError ∧
  exn_class_of (split_pdf (posix "/home/u") "doc.pdf" 1 1 "/nowhere/out.pdf" home).2 =
  Some RuntimeError ∧
  exn_class_of (pdf_to_docx (posix "/home/u") "doc.pdf" "/nowhere/out.docx" home).2 =
  Some RuntimeError.
Proof.
  split; [reflexivity|].
  repeat split; try (intros msg; vm_compute; discriminate); vm_compute; reflexivity.
Qed.

(** ** Extracting every page, then merging the extract alone *)

Lemma pages_between_whole (pages : list page) :
  pages_between pages 1 (Z.of_nat (length pages)) = pages.
Proof.
  unfold pages_between. change (Z.to_nat (1 - 1)) with 0%nat. rewrite drop_0.
  apply take_ge. lia.
Qed.

(** C7 (as amended). For a document of N >= 1 pages, with both output
    directories present and both saves going through, extracting pages 1..N
    with [split_pdf] and then merging the extracted file alone with
    [merge_pdfs] both succeed, and the merged file holds exactly the N pages
    of the document in their order. *)
Theorem split_then_merge_round_trip (P : platform) (source part merged : string)
    (w : world) (pages : list page) :
  pages ≠ [] →
  pdf_at P (fs w) source pages →
  output_dir_exists P (fs w) part → not_a_directory P (fs w) part →
  save_outcome P pages part = Completes →
  output_dir_exists P (fs w) merged → not_a_directory P (fs w) merged →
  save_outcome P pages merged = Completes →
  let split := split_pdf P source 1 (Z.of_nat (length pages)) part w in
  let merge := merge_pdfs P [part] merged split.1 in
  split.2 = Ok tt ∧
  merge.2 = Ok tt ∧
  pdf_at P (fs merge.1) merged pages ∧
  heap merge.1 = heap w.
Proof.
  intros Hne Hsrc Hdir1 Hnd1 Hsave1 Hdir2 Hnd2 Hsave2.
  assert (1 ≤ Z.of_nat (length pages))%Z as Hlen
    by (destruct pages; [done|simpl length; lia]).
  pose proof (split_pdf_accepts P source 1 (Z.of_nat (length pages)) part w pages)
    as Hsplit.
  rewrite pages_between_whole in Hsplit.
  specialize (Hsplit Hsrc ltac:(lia) ltac:(lia) Hdir1 Hnd1 Hsave1).
  cbv zeta. rewrite Hsplit. cbn [fst snd].
  set (w1 := World _ _ _).
  assert (abspath P part ≠ abspath P (output_dir_of P merged)) as Hkeys.
  { intros Heq. apply Hnd1. unfold output_dir_exists in Hdir2. by rewrite Heq. }
  rewrite (merge_pdfs_accepts P [part] [pages] merged w1).
  - cbn [fst snd fs heap concat]. rewrite app_nil_r.
    repeat split. apply lookup_insert_eq.
  - done.
  - repeat constructor. apply lookup_insert_eq.
  - by repeat constructor.
  - unfold output_dir_exists. subst w1. cbn [fs].
    by rewrite lookup_insert_ne.
  - unfold not_a_directory. subst w1. cbn [fs].
    rewrite lookup_insert. case_decide; [done|apply Hnd2].
  - cbn [concat]. by rewrite app_nil_r.
Qed.

Lemma split_then_merge_round_trip_home :
  (split_pdf (posix "/home/u") "A.pdf" 1 3 "part.pdf" home).2 = Ok tt ∧
  (merge_pdfs (posix "/home/u") ["part.pdf"] "whole.pdf"
     (split_pdf (posix "/home/u") "A.pdf" 1 3 "part.pdf" home).1).2 = Ok tt ∧
  pdf_at (posix "/home/u")
    (fs (merge_pdfs (posix "/home/u") ["part.pdf"] "whole.pdf"
           (split_pdf (posix "/home/u") "A.pdf" 1 3 "part.pdf" home).1).1)
    "whole.pdf" ["a1"; "a2"; "a3"] ∧
  heap (merge_pdfs (posix "/home/u") ["part.pdf"] "whole.pdf"
          (split_pdf (posix "/home/u") "A.pdf" 1 3 "part.pdf" home).1).1 = heap home.
Proof.
  apply (split_then_merge_round_trip (posix "/home/u") "A.pdf" "part.pdf" "whole.pdf"
           home ["a1"; "a2"; "a3"]).
  - discriminate.
  - reflexivity.
  - reflexivity.
  - vm_compute; discriminate.
  - reflexivity.
  - reflexivity.
  - vm_compute; discriminate.
  - reflexivity.
Defined.

(** C7 does not hold as stated for N = 0: on a document without pages the
    range 1..0 is rejected (its end is below 1), nothing is extracted, and merging
    the file that was to be extracted fails for want of it; no merged
    document comes out. *)
Lemma round_trip_fails_without_pages :
  pdf_at (posix "/home/u") (fs home) "blank.pdf" [] ∧
  (split_pdf (posix "/home/u") "blank.pdf" 1 0 "part.pdf" home).2 =
  Raise (ExnFrom RuntimeError "Failed to split PDF: Page numbers must be >= 1."
           page_numbers_below_one) ∧
  (merge_pdfs (posix "/home/u") ["part.pdf"] "whole.pdf"
     (split_pdf (posix "/home/u") "blank.pdf" 1 0 "part.pdf" home).1).2 =
  Raise (ExnFrom RuntimeError "Failed to merge PDFs: File not found: part.pdf"
           (Exn FileNotFoundError "File not found: part.pdf")) ∧
  fs (merge_pdfs (posix "/home/u") ["part.pdf"] "whole.pdf"
        (split_pdf (posix "/home/u") "blank.pdf" 1 0 "part.pdf" home).1).1
    !! "/home/u/whole.pdf" = None.
Proof. repeat split; vm_compute; reflexivity. Qed.

(** ** Handles *)

(** [merge_pdfs] and [split_pdf] close every handle they open, however they
    end. *)
Lemma merge_pdfs_releases (P : platform) (input_files : list string)
    (output_path : string) (w : world) :
  heap (merge_pdfs P input_files output_path w).1 = heap w.
Proof.
  destruct input_files as [|path rest]; [done|].
  by destruct (merge_pdfs_outcome P (path :: rest) output_path w)
    as [(evs & exc & -> & _)|(evs & docs & _ & _ & _ & _ & ->)].
Qed.

Lemma split_pdf_releases (P : platform) (input_file : string) (start_page end_page : Z)
    (output_path : string) (w : world) :
  heap (split_pdf P input_file start_page end_page output_path w).1 = heap w.
Proof.
  destruct (fs w !! abspath P input_file) as [n|] eqn:Hsrc.
  - destruct (pdf_or_not n) as [[pages ->]|Hnot].
    + rewrite (split_pdf_on_pdf P _ _ _ _ _ pages) by done.
      destruct (validate_page_range _ _ _ w).2 as [[]|exc]; [|done].
      cbv zeta. by case_decide.
    + by destruct (split_pdf_source_unreadable P input_file start_page end_page
                     output_path w n Hsrc) as [exc ->].
  - by rewrite split_pdf_source_missing.
Qed.

(** [pdf_to_docx] closes its converter only when [convert] returns: when the
    conversion raises, the converter it opened is still open afterwards. *)
Lemma pdf_to_docx_leaks_when_convert_raises (P : platform)
    (input_file output_path : string) (w : world) (pages : list page) (exc : exn) :
  pdf_at P (fs w) input_file pages →
  output_dir_exists P (fs w) output_path →
  (write_effect P output_path (DocxData pages)
     (convert_verdict P (fs w) pages output_path) (fs w)).2 = Raise exc →
  heap (pdf_to_docx P input_file output_path w).1 =
  <[fresh (dom (heap w)) := PdfConverter pages]> (heap w) ∧
  heap (pdf_to_docx P input_file output_path w).1 ≠ heap w.
Proof.
  intros Hsrc Hdir Hraise.
  rewrite (pdf_to_docx_converts P _ _ _ pages) by done.
  cbv zeta. rewrite Hraise. cbn [fst heap]. split; [done|].
  intros Heq. apply (f_equal (λ hp, hp !! fresh (dom (heap w)))) in Heq.
  by rewrite lookup_insert_eq, fresh_handle_unused in Heq.
Qed.

(** C9, at its failing input. Converting A.pdf to a path that names an
    existing directory: the converter opens A.pdf, [convert] raises, and
    [pdf_to_docx] raises its [RuntimeError] with the converter still open,
    where no handle was open before. *)
Theorem pdf_to_docx_leaks_converter :
  heap home = ∅ ∧
  (pdf_to_docx (posix "/home/u") "A.pdf" "archive" home).2 =
  Raise (ExnFrom RuntimeError
           "Failed to convert PDF to DOCX: [Errno 21] Is a directory: 'archive'"
           (Exn (ForeignError "IsADirectoryError")
                "[Errno 21] Is a directory: 'archive'")) ∧
  heap (pdf_to_docx (posix "/home/u") "A.pdf" "archive" home).1 =
  {[ 0%nat := PdfConverter ["a1"; "a2"; "a3"] ]}.
Proof. repeat split; vm_compute; reflexivity. Qed.

(** * Further properties of the engine *)

(** ** The errors that leave the engine *)

(** X1. [merge_pdfs] raises its [ValueError] exactly on an empty list; on a
    non-empty list everything that goes wrong, in the engine or in the
    library, leaves as a [RuntimeError] whose message is "Failed to merge
    PDFs: " followed by the message of the exception it was raised from. *)
Theorem merge_pdfs_error_classes (P : platform) (input_files : list string)
    (output_path : string) (w : world) :
  match (merge_pdfs P input_files output_path w).2 with
  | Ok _ => input_files ≠ []
  | Raise exc =>
      (input_files = [] ∧
       exc = Exn ValueError "there is no input files provided to merge.") ∨
      (input_files ≠ [] ∧
       ∃ cause, exc = ExnFrom RuntimeError ("Failed to merge PDFs: " +:+ str cause) cause)
  end.
Proof.
  destruct input_files as [|path rest]; [left; done|].
  destruct (merge_pdfs_outcome P (path :: rest) output_path w)
    as [(evs & exc & -> & _)|(evs & docs & _ & _ & _ & _ & ->)]; [done|..]; cbn [snd].
  - right. split; [done|]. by exists exc.
  - destruct (write_effect _ _ _ _ _).2 as [[]|exc]; cbn [wrapped]; [done|].
    right. split; [done|]. by exists exc.
Qed.

(** X2. [split_pdf] raises [FileNotFoundError] "Source file not found: .."
    exactly when the source does not exist, after the one existence query
    and with nothing opened; when the source exists, every failure leaves as
    a [RuntimeError] "Failed to split PDF: .." raised from its cause. *)
Theorem split_pdf_error_classes (P : platform) (input_file : string)
    (start_page end_page : Z) (output_path : string) (w : world) :
  match fs w !! abspath P input_file with
  | None =>
      split_pdf P input_file start_page end_page output_path w =
      (World (fs w) (heap w) (trace w ++ [QueryExists input_file]),
       Raise (Exn FileNotFoundError ("Source file not found: " +:+ input_file)))
  | Some _ =>
      match (split_pdf P input_file start_page end_page output_path w).2 with
      | Ok _ => True
      | Raise exc =>
          ∃ cause, exc = ExnFrom RuntimeError ("Failed to split PDF: " +:+ str cause) cause
      end
  end.
Proof.
  destruct (fs w !! abspath P input_file) as [n|] eqn:Hsrc;
    [|by apply split_pdf_source_missing].
  destruct (pdf_or_not n) as [[pages ->]|Hnot].
  - rewrite (split_pdf_on_pdf P _ _ _ _ _ pages) by done.
    destruct (validate_page_range _ _ _ w).2 as [[]|exc]; [|by exists exc].
    cbv zeta. case_decide; cbn [snd wrapped]; [|by eexists].
    destruct (write_effect _ _ _ _ _).2 as [[]|exc]; cbn [wrapped]; [done|].
    by exists exc.
  - destruct (split_pdf_source_unreadable P input_file start_page end_page
                output_path w n Hsrc) as [exc ->]; [done|].
    by exists exc.
Qed.

(** X3. [pdf_to_docx] raises [FileNotFoundError] "Source file not found: .."
    exactly when the source does not exist, after the one existence query;
    when the source exists, every failure leaves as a [RuntimeError] "Failed
    to convert PDF to DOCX: .." raised from its cause. *)
Theorem pdf_to_docx_error_classes (P : platform) (input_file output_path : string)
    (w : world) :
  match fs w !! abspath P input_file with
  | None =>
      pdf_to_docx P input_file output_path w =
      (World (fs w) (heap w) (trace w ++ [QueryExists input_file]),
       Raise (Exn FileNotFoundError ("Source file not found: " +:+ input_file)))
  | Some _ =>
      match (pdf_to_docx P input_file output_path w).2 with
      | Ok _ => True
      | Raise exc =>
          ∃ cause,
            exc = ExnFrom RuntimeError ("Failed to convert PDF to DOCX: " +:+ str cause)
                    cause
      end
  end.
Proof.
  destruct (fs w !! abspath P input_file) as [n|] eqn:Hsrc;
    [|by apply pdf_to_docx_source_missing].
  destruct (decide (output_dir_exists P (fs w) output_path)) as [Hdir|Hdir].
  - destruct (pdf_or_not n) as [[pages ->]|Hnot].
    + rewrite (pdf_to_docx_converts P _ _ _ pages) by done. cbv zeta.
      destruct (write_effect _ _ _ _ _).2 as [[]|exc]; cbn [snd wrapped]; [done|].
      by exists exc.
    + destruct (pdf_to_docx_source_unreadable P input_file output_path w n Hsrc)
        as [exc ->]; [done..|].
      by exists exc.
  - rewrite (pdf_to_docx_no_output_dir P _ _ _ n) by done. by eexists.
Qed.

(** ** Files and handles the engine leaves alone *)

(** X4. No operation changes anything in the file system but the entry of
    its output path, however it ends: every other path, the inputs among
    them, holds afterwards what it held before. *)
Theorem operations_touch_only_output (P : platform) (output_path : string) (w : world)
    (other : string) :
  other ≠ abspath P output_path →
  (∀ input_files,
     fs (merge_pdfs P input_files output_path w).1 !! other = fs w !! other) ∧
  (∀ input_file start_page end_page,
     fs (split_pdf P input_file start_page end_page output_path w).1 !! other =
     fs w !! other) ∧
  (∀ input_file,
     fs (pdf_to_docx P input_file output_path w).1 !! other = fs w !! other).
Proof.
  intros Hother.
  assert (∀ handed res, atomic_but_for_aborts P output_path handed w res →
                        fs res.1 !! other = fs w !! other) as Hframe.
  { intros handed [w' r]
      (evs & _ & [(_ & Hfs & _)|(before & whole & o & _ & _ & _ & Ho)]);
      cbn [fst snd] in *; [by rewrite Hfs|].
    destruct o; destruct Ho as [_ Hfs]; rewrite Hfs; by rewrite ?lookup_insert_ne. }
  split; [|split]; intros.
  - apply (Hframe _ _ (merge_pdfs_atomic P input_files output_path w)).
  - apply (Hframe _ _ (split_pdf_atomic P input_file start_page end_page output_path w)).
  - apply (Hframe _ _ (pdf_to_docx_atomic P input_file output_path w)).
Qed.

Lemma operations_touch_only_output_home :
  fs (merge_pdfs (posix "/home/u") ["A.pdf"; "B.pdf"] "out.pdf" home).1
    !! "/home/u/A.pdf" = fs home !! "/home/u/A.pdf" ∧
  fs (split_pdf (posix "/home/u") "doc.pdf" 2 4 "out.pdf" home).1
    !! "/home/u/doc.pdf" = fs home !! "/home/u/doc.pdf" ∧
  fs (pdf_to_docx (posix "/home/u") "doc.pdf" "out.docx" home).1
    !! "/home/u/doc.pdf" = fs home !! "/home/u/doc.pdf".
Proof.
  split; [|split].
  - apply (operations_touch_only_output (posix "/home/u") "out.pdf" home
             "/home/u/A.pdf"); discriminate.
  - apply (operations_touch_only_output (posix "/home/u") "out.pdf" home
             "/home/u/doc.pdf"); discriminate.
  - apply (operations_touch_only_output (posix "/home/u") "out.docx" home
             "/home/u/doc.pdf"); discriminate.
Defined.

(** X5. [merge_pdfs] and [split_pdf] close every document they open,
    however they end; [pdf_to_docx] leaves the handles as they were unless
    the conversion itself raises. *)
Theorem handles_after_operations (P : platform) (output_path : string) (w : world) :
  (∀ input_files, heap (merge_pdfs P input_files output_path w).1 = heap w) ∧
  (∀ input_file start_page end_page,
     heap (split_pdf P input_file start_page end_page output_path w).1 = heap w) ∧
  (∀ input_file,
     heap (pdf_to_docx P input_file output_path w).1 = heap w ∨
     ∃ pages exc,
       pdf_at P (fs w) input_file pages ∧
       output_dir_exists P (fs w) output_path ∧
       (write_effect P output_path (DocxData pages)
          (convert_verdict P (fs w) pages output_path) (fs w)).2 = Raise exc).
Proof.
  split; [|split]; intros.
  - apply merge_pdfs_releases.
  - apply split_pdf_releases.
  - destruct (fs w !! abspath P input_file) as [n|] eqn:Hsrc;
      [|left; by rewrite pdf_to_docx_source_missing].
    destruct (decide (output_dir_exists P (fs w) output_path)) as [Hdir|Hdir];
      [|left; by rewrite (pdf_to_docx_no_output_dir P _ _ _ n)].
    destruct (pdf_or_not n) as [[pages ->]|Hnot].
    + destruct (write_effect P output_path (DocxData pages)
                  (convert_verdict P (fs w) pages output_path) (fs w)).2
        as [[]|exc] eqn:Heff.
      * left. rewrite (pdf_to_docx_converts P _ _ _ pages) by done.
        cbv zeta. by rewrite Heff.
      * right. by exists pages, exc.
    + left. by destruct (pdf_to_docx_source_unreadable P input_file output_path w n Hsrc)
        as [exc ->].
Qed.

(** ** Where [merge_pdfs] stops *)

(** A file that does not open, or opens without pages, ends the loop there,
    whatever comes after. *)
Lemma merge_loop_stops_here (P : platform) (path : string) (w : world) (merged : nat)
    (acc : list page) :
  (∀ pages, pdf_at P (fs w) path pages → pages = []) →
  heap w !! merged = Some (Document acc) →
  ∃ evs exc,
    no_write evs ∧
    ∀ after,
      merge_loop P merged (path :: after) w =
      (World (fs w) (heap w) (trace w ++ evs), Raise exc).
Proof.
  unfold pdf_at. intros Hnot Hm. destruct w as [files hp tr]. cbn [fs heap trace] in *.
  destruct (files !! abspath P path) as [[|[[|p d]|d|b]]|] eqn:Hp;
    [| |by specialize (Hnot (p :: d) eq_refl)|..].
  1-4: exists [QueryExists path; OpenFile path]; eexists;
       (split; [by repeat constructor|]); intros after;
       pose proof (fresh_handle_ne _ _ _ Hm) as Hne;
       cbn [merge_loop]; run; settle.
  exists [QueryExists path]; eexists. split; [by repeat constructor|].
  intros after. cbn [merge_loop]. run. settle.
Qed.

Lemma merge_loop_stops (P : platform) (before : list string) (docs : list (list page))
    (path : string) :
  ∀ (w : world) (merged : nat) (acc : list page),
    Forall2 (pdf_at P (fs w)) before docs →
    Forall (λ d, d ≠ []) docs →
    (∀ pages, pdf_at P (fs w) path pages → pages = []) →
    heap w !! merged = Some (Document acc) →
    ∃ evs exc,
      no_write evs ∧
      ∀ after,
        merge_loop P merged (before ++ path :: after) w =
        (World (fs w) (<[merged := Document (acc ++ concat docs)]> (heap w))
               (trace w ++ probes before ++ evs),
         Raise exc).
Proof.
  intros w merged acc Hall. revert merged acc.
  destruct w as [files hp tr]. cbn [fs heap trace] in *. revert hp tr.
  induction Hall as [|p d rest docs Hp Hrest IH];
    intros hp tr merged acc Hpages Hnot Hm.
  - destruct (merge_loop_stops_here P path (World files hp tr) merged acc Hnot Hm)
      as (evs & exc & Hq & Hrun).
    exists evs, exc. split; [done|]. intros after.
    cbn [app concat probes flat_map]. rewrite Hrun. cbn [fs heap trace].
    rewrite app_nil_r. by rewrite insert_id.
  - apply Forall_cons in Hpages as [Hd Hpages].
    destruct (IH (<[merged := Document (acc ++ d)]> hp)
                 (tr ++ [QueryExists p; OpenFile p]) merged (acc ++ d) Hpages Hnot
                 (lookup_insert_eq _ _ _))
      as (evs & exc & Hq & Hrun).
    exists evs, exc. split; [done|]. intros after.
    rewrite <- app_comm_cons.
    rewrite (merge_loop_cons_pdf P _ merged acc d) by done. cbn [fs heap trace].
    rewrite Hrun. cbn [concat probes flat_map].
    rewrite insert_insert_eq. by rewrite <- !app_assoc.
Qed.

(** X6. When the files listed before [path] open and have pages and [path]
    does not (it is missing, a directory, not a PDF, or a PDF without
    pages), [merge_pdfs] fails at [path]: the outcome is the same whatever
    files are listed after it and whatever the output path is; those files
    are not looked at, nothing is written, the file system is as it was and
    every handle is closed. *)
Theorem merge_pdfs_stops_at_first_failure (P : platform) (before : list string)
    (docs : list (list page)) (path : string) (w : world) :
  Forall2 (pdf_at P (fs w)) before docs →
  Forall (λ d, d ≠ []) docs →
  (∀ pages, pdf_at P (fs w) path pages → pages = []) →
  ∃ evs cause,
    no_write evs ∧
    ∀ after output_path,
      merge_pdfs P (before ++ path :: after) output_path w =
      (World (fs w) (heap w) (trace w ++ probes before ++ evs),
       Raise (ExnFrom RuntimeError ("Failed to merge PDFs: " +:+ str cause) cause)).
Proof.
  intros Hall Hpages Hnot. destruct w as [files hp tr]. cbn [fs heap trace] in *.
  destruct (merge_loop_stops P before docs path
              (World files (<[fresh (dom hp) := Document []]> hp) tr)
              (fresh (dom hp)) [] Hall Hpages Hnot (lookup_insert_eq _ _ _))
    as (evs & exc & Hq & Hrun).
  exists evs, exc. split; [done|]. intros after output_path.
  specialize (Hrun after). cbn [fs heap trace app] in Hrun.
  rewrite insert_insert_eq in Hrun. unfold merge_pdfs.
  destruct (before ++ path :: after) as [|p l] eqn:Hl; [by destruct before|].
  run. rewrite Hrun. run. settle.
Qed.

Lemma merge_pdfs_stops_at_first_failure_home :
  ∃ evs cause,
    no_write evs ∧
    ∀ after output_path,
      merge_pdfs (posix "/home/u") (["A.pdf"] ++ "blank.pdf" :: after) output_path home =
      (World (fs home) (heap home) (trace home ++ probes ["A.pdf"] ++ evs),
       Raise (ExnFrom RuntimeError ("Failed to merge PDFs: " +:+ str cause) cause)).
Proof.
  apply (merge_pdfs_stops_at_first_failure (posix "/home/u") ["A.pdf"]
           [["a1"; "a2"; "a3"]] "blank.pdf" home).
  - repeat constructor.
  - repeat constructor; discriminate.
  - intros pages Hpages. vm_compute in Hpages. by injection Hpages as <-.
Defined.

(** ** The order of the checks in [split_pdf] *)

(** X7. The range is checked before the output path is looked at: on a
    source that opens, a rejected range gives the same outcome for every
    output path, with no query for the output directory and no write. *)
Theorem split_pdf_rejects_before_output (P : platform) (input_file : string)
    (start_page end_page : Z) (w : world) (pages : list page) :
  pdf_at P (fs w) input_file pages →
  ¬ (1 ≤ start_page ≤ end_page ∧ end_page ≤ Z.of_nat (length pages))%Z →
  ∃ cause,
    (cause = page_numbers_below_one ∨ cause = start_after_end ∨
     cause = end_exceeds_count end_page (Z.of_nat (length pages))) ∧
    ∀ output_path,
      split_pdf P input_file start_page end_page output_path w =
      (World (fs w) (heap w) (trace w ++ [QueryExists input_file; OpenFile input_file]),
       Raise (ExnFrom RuntimeError ("Failed to split PDF: " +:+ str cause) cause)).
Proof.
  intros Hsrc Hbad.
  destruct (validate_page_range_cases start_page end_page
              (Z.of_nat (length pages)) w) as [[_ Hv]|[[_ Hv]|[[_ Hv]|[Hc _]]]];
    [..|lia];
    eexists; (split; [|intros output_path;
                       by apply (split_pdf_range_rejected P _ _ _ _ _ pages)]); auto.
Qed.

Lemma split_pdf_rejects_before_output_home :
  ∃ cause,
    (cause = page_numbers_below_one ∨ cause = start_after_end ∨
     cause = end_exceeds_count 11 10) ∧
    ∀ output_path,
      split_pdf (posix "/home/u") "doc.pdf" 1 11 output_path home =
      (World (fs home) (heap home)
             (trace home ++ [QueryExists "doc.pdf"; OpenFile "doc.pdf"]),
       Raise (ExnFrom RuntimeError ("Failed to split PDF: " +:+ str cause) cause)).
Proof.
  apply (split_pdf_rejects_before_output (posix "/home/u") "doc.pdf" 1 11 home
           ["p1"; "p2"; "p3"; "p4"; "p5"; "p6"; "p7"; "p8"; "p9"; "p10"]).
  - reflexivity.
  - simpl. lia.
Defined.

(** ** Operations one after the other *)

Lemma pdf_at_after_write (P : platform) (files : gmap string node) (path other : string)
    (pages : list page) (c : content) :
  abspath P path ≠ abspath P other →
  pdf_at P files path pages →
  pdf_at P (<[abspath P other := RegularFile c]> files) path pages.
Proof. unfold pdf_at. intros Hne Hp. by rewrite lookup_insert_ne. Qed.

Lemma output_dir_exists_after_write (P : platform) (files : gmap string node)
    (output_path other : string) (c : content) :
  not_a_directory P files other →
  output_dir_exists P files output_path →
  output_dir_exists P (<[abspath P other := RegularFile c]> files) output_path.
Proof.
  unfold not_a_directory, output_dir_exists. intros Hnd Hdir.
  rewrite lookup_insert_ne; [done|]. intros Heq. apply Hnd. by rewrite Heq.
Qed.

Lemma not_a_directory_after_write (P : platform) (files : gmap string node)
    (output_path other : string) (c : content) :
  not_a_directory P files output_path →
  not_a_directory P (<[abspath P other := RegularFile c]> files) output_path.
Proof.
  unfold not_a_directory. intros Hnd. rewrite lookup_insert.
  case_decide; [done|apply Hnd].
Qed.

Lemma all_pdf_at_after_write (P : platform) (files : gmap string node)
    (input_files : list string) (docs : list (list page)) (other : string) (c : content) :
  Forall (λ path, abspath P path ≠ abspath P other) input_files →
  Forall2 (pdf_at P files) input_files docs →
  Forall2 (pdf_at P (<[abspath P other := RegularFile c]> files)) input_files docs.
Proof.
  intros Hne Hall. revert Hne.
  induction Hall as [|path d rest docs Hp Hrest IH]; intros Hne; [constructor|].
  apply Forall_cons in Hne as [Hpath Hne].
  constructor; [by apply pdf_at_after_write|by apply IH].
Qed.

(** X8. Merging again with the same files, all with pages, and the same
    output path, when the output is not one of the inputs, succeeds again
    and leaves the file system exactly as the first merge left it, with the
    same pages at the output path. *)
Theorem merge_pdfs_twice (P : platform) (input_files : list string)
    (docs : list (list page)) (output_path : string) (w : world) :
  input_files ≠ [] →
  Forall2 (pdf_at P (fs w)) input_files docs →
  Forall (λ d, d ≠ []) docs →
  Forall (λ path, abspath P path ≠ abspath P output_path) input_files →
  output_dir_exists P (fs w) output_path →
  not_a_directory P (fs w) output_path →
  save_outcome P (concat docs) output_path = Completes →
  (merge_pdfs P input_files output_path w).2 = Ok tt ∧
  (merge_pdfs P input_files output_path
     (merge_pdfs P input_files output_path w).1).2 = Ok tt ∧
  fs (merge_pdfs P input_files output_path
        (merge_pdfs P input_files output_path w).1).1 =
  fs (merge_pdfs P input_files output_path w).1 ∧
  pdf_at P (fs (merge_pdfs P input_files output_path w).1) output_path (concat docs).
Proof.
  intros Hne Hall Hpages Hother Hdir Hnd Hsave.
  rewrite (merge_pdfs_accepts P input_files docs output_path w) by done.
  cbn [fst snd]. set (w1 := World _ _ _).
  rewrite (merge_pdfs_accepts P input_files docs output_path w1); subst w1;
    cbn [fst snd fs].
  - repeat split; [by rewrite insert_insert_eq|apply lookup_insert_eq].
  - done.
  - by apply all_pdf_at_after_write.
  - done.
  - by apply output_dir_exists_after_write.
  - by apply not_a_directory_after_write.
  - done.
Qed.

Lemma merge_pdfs_twice_home :
  (merge_pdfs (posix "/home/u") ["A.pdf"; "B.pdf"] "out.pdf" home).2 = Ok tt ∧
  (merge_pdfs (posix "/home/u") ["A.pdf"; "B.pdf"] "out.pdf"
     (merge_pdfs (posix "/home/u") ["A.pdf"; "B.pdf"] "out.pdf" home).1).2 = Ok tt ∧
  fs (merge_pdfs (posix "/home/u") ["A.pdf"; "B.pdf"] "out.pdf"
        (merge_pdfs (posix "/home/u") ["A.pdf"; "B.pdf"] "out.pdf" home).1).1 =
  fs (merge_pdfs (posix "/home/u") ["A.pdf"; "B.pdf"] "out.pdf" home).1 ∧
  pdf_at (posix "/home/u")
    (fs (merge_pdfs (posix "/home/u") ["A.pdf"; "B.pdf"] "out.pdf" home).1)
    "out.pdf" ["a1"; "a2"; "a3"; "b1"; "b2"].
Proof.
  apply (merge_pdfs_twice (posix "/home/u") ["A.pdf"; "B.pdf"]
           [["a1"; "a2"; "a3"]; ["b1"; "b2"]] "out.pdf" home).
  - discriminate.
  - repeat constructor.
  - repeat constructor; discriminate.
  - repeat constructor; discriminate.
  - reflexivity.
  - vm_compute; discriminate.
  - reflexivity.
Defined.

Lemma pages_between_nonempty (pages : list page) (a b : Z) :
  (1 ≤ a ≤ b)%Z → (b ≤ Z.of_nat (length pages))%Z → pages_between pages a b ≠ [].
Proof.
  intros Hab Hb Hnil. apply (f_equal length) in Hnil.
  unfold pages_between in Hnil. rewrite length_take, length_drop in Hnil.
  cbn [length] in Hnil. lia.
Qed.

Lemma pages_between_halves (pages : list page) (k : Z) :
  (1 ≤ k)%Z → (k < Z.of_nat (length pages))%Z →
  pages_between pages 1 k ++ pages_between pages (k + 1) (Z.of_nat (length pages)) =
  pages.
Proof.
  intros Hk Hlen. unfold pages_between.
  change (Z.to_nat (1 - 1)) with 0%nat. rewrite drop_0.
  replace (Z.to_nat (k - 1 + 1)) with (Z.to_nat k) by lia.
  replace (Z.to_nat (k + 1 - 1)) with (Z.to_nat k) by lia.
  rewrite (take_ge (drop _ _)) by (rewrite length_drop; lia).
  apply take_drop.
Qed.

(** X9. Cutting a document of N pages in two with [split_pdf], pages 1..k
    and k+1..N (1 <= k < N), and merging the two parts in that order with
    [merge_pdfs] gives back the N pages in their order, with every handle
    closed; the first part must not be written over the source. *)
Theorem split_in_two_then_merge (P : platform) (source first second merged : string)
    (w : world) (pages : list page) (k : Z) :
  pdf_at P (fs w) source pages →
  (1 ≤ k)%Z → (k < Z.of_nat (length pages))%Z →
  abspath P source ≠ abspath P first →
  abspath P first ≠ abspath P second →
  output_dir_exists P (fs w) first → not_a_directory P (fs w) first →
  output_dir_exists P (fs w) second → not_a_directory P (fs w) second →
  output_dir_exists P (fs w) merged → not_a_directory P (fs w) merged →
  save_outcome P (pages_between pages 1 k) first = Completes →
  save_outcome P (pages_between pages (k + 1) (Z.of_nat (length pages))) second =
  Completes →
  save_outcome P pages merged = Completes →
  (merge_pdfs P [first; second] merged
     (split_pdf P source (k + 1) (Z.of_nat (length pages)) second
        (split_pdf P source 1 k first w).1).1).2 = Ok tt ∧
  pdf_at P
    (fs (merge_pdfs P [first; second] merged
           (split_pdf P source (k + 1) (Z.of_nat (length pages)) second
              (split_pdf P source 1 k first w).1).1).1)
    merged pages ∧
  heap (merge_pdfs P [first; second] merged
          (split_pdf P source (k + 1) (Z.of_nat (length pages)) second
             (split_pdf P source 1 k first w).1).1).1 = heap w.
Proof.
  intros Hsrc Hk Hlen Hsf Hfs Hd1 Hn1 Hd2 Hn2 Hd3 Hn3 Hs1 Hs2 Hs3.
  rewrite (split_pdf_accepts P source 1 k first w pages) by (done || lia).
  cbn [fst]. set (w1 := World _ _ _).
  rewrite (split_pdf_accepts P source (k + 1) (Z.of_nat (length pages)) second w1 pages);
    subst w1; cbn [fst fs].
  2: by apply pdf_at_after_write.
  2,3: lia.
  2: by apply output_dir_exists_after_write.
  2: by apply not_a_directory_after_write.
  2: done.
  set (w2 := World _ _ _).
  rewrite (merge_pdfs_accepts P [first; second]
             [pages_between pages 1 k;
              pages_between pages (k + 1) (Z.of_nat (length pages))] merged w2);
    subst w2; cbn [fst snd fs heap concat].
  - rewrite app_nil_r, pages_between_halves by done.
    repeat split. apply lookup_insert_eq.
  - done.
  - constructor; [|constructor; [|constructor]].
    + apply pdf_at_after_write; [done|]. apply lookup_insert_eq.
    + apply lookup_insert_eq.
  - repeat constructor; apply pages_between_nonempty; lia.
  - apply output_dir_exists_after_write; [by apply not_a_directory_after_write|].
    by apply output_dir_exists_after_write.
  - by do 2 apply not_a_directory_after_write.
  - by rewrite app_nil_r, pages_between_halves.
Qed.

Lemma split_in_two_then_merge_home :
  (merge_pdfs (posix "/home/u") ["head.pdf"; "tail.pdf"] "whole.pdf"
     (split_pdf (posix "/home/u") "doc.pdf" (4 + 1) (Z.of_nat 10) "tail.pdf"
        (split_pdf (posix "/home/u") "doc.pdf" 1 4 "head.pdf" home).1).1).2 = Ok tt ∧
  pdf_at (posix "/home/u")
    (fs (merge_pdfs (posix "/home/u") ["head.pdf"; "tail.pdf"] "whole.pdf"
           (split_pdf (posix "/home/u") "doc.pdf" (4 + 1) (Z.of_nat 10) "tail.pdf"
              (split_pdf (posix "/home/u") "doc.pdf" 1 4 "head.pdf" home).1).1).1)
    "whole.pdf" ["p1"; "p2"; "p3"; "p4"; "p5"; "p6"; "p7"; "p8"; "p9"; "p10"] ∧
  heap (merge_pdfs (posix "/home/u") ["head.pdf"; "tail.pdf"] "whole.pdf"
          (split_pdf (posix "/home/u") "doc.pdf" (4 + 1) (Z.of_nat 10) "tail.pdf"
             (split_pdf (posix "/home/u") "doc.pdf" 1 4 "head.pdf" home).1).1).1 =
  heap home.
Proof.
  apply (split_in_two_then_merge (posix "/home/u") "doc.pdf" "head.pdf" "tail.pdf"
           "whole.pdf" home
           ["p1"; "p2"; "p3"; "p4"; "p5"; "p6"; "p7"; "p8"; "p9"; "p10"] 4).
  - reflexivity.
  - lia.
  - simpl; lia.
  - discriminate.
  - discriminate.
  - reflexivity.
  - vm_compute; discriminate.
  - reflexivity.
  - vm_compute; discriminate.
  - reflexivity.
  - vm_compute; discriminate.
  - reflexivity.
  - reflexivity.
  - reflexivity.
Defined.

Lemma pages_between_compose (pages : list page) (a b c d : Z) :
  (1 ≤ a ≤ b)%Z → (b ≤ Z.of_nat (length pages))%Z →
  (1 ≤ c ≤ d)%Z → (d ≤ b - a + 1)%Z →
  pages_between (pages_between pages a b) c d =
  pages_between pages (a + c - 1) (a + d - 1).
Proof.
  intros Hab Hb Hcd Hd. unfold pages_between.
  rewrite (take_drop_commute pages), drop_drop, take_drop_commute, take_take.
  rewrite (take_drop_commute pages).
  f_equal; [lia|]. f_equal. lia.
Qed.

(** X10. Extracting pages c..d from the extract of pages a..b of a document
    is extracting pages a+c-1 .. a+d-1 of the document itself: the second
    [split_pdf] succeeds and writes exactly those pages. *)
Theorem split_pdf_of_split_pdf (P : platform) (source part output_path : string)
    (w : world) (pages : list page) (a b c d : Z) :
  pdf_at P (fs w) source pages →
  (1 ≤ a ≤ b)%Z → (b ≤ Z.of_nat (length pages))%Z →
  (1 ≤ c ≤ d)%Z → (d ≤ b - a + 1)%Z →
  output_dir_exists P (fs w) part → not_a_directory P (fs w) part →
  output_dir_exists P (fs w) output_path → not_a_directory P (fs w) output_path →
  save_outcome P (pages_between pages a b) part = Completes →
  save_outcome P (pages_between pages (a + c - 1) (a + d - 1)) output_path = Completes →
  (split_pdf P part c d output_path (split_pdf P source a b part w).1).2 = Ok tt ∧
  pdf_at P (fs (split_pdf P part c d output_path (split_pdf P source a b part w).1).1)
    output_path (pages_between pages (a + c - 1) (a + d - 1)).
Proof.
  intros Hsrc Hab Hb Hcd Hd Hd1 Hn1 Hd2 Hn2 Hs1 Hs2.
  rewrite (split_pdf_accepts P source a b part w pages) by done.
  cbn [fst]. set (w1 := World _ _ _).
  assert (Z.of_nat (length (pages_between pages a b)) = b - a + 1)%Z as Hlen.
  { unfold pages_between. rewrite length_take, length_drop. lia. }
  rewrite (split_pdf_accepts P part c d output_path w1 (pages_between pages a b));
    subst w1; cbn [fst snd fs].
  - rewrite pages_between_compose by done. split; [done|apply lookup_insert_eq].
  - apply lookup_insert_eq.
  - done.
  - lia.
  - by apply output_dir_exists_after_write.
  - by apply not_a_directory_after_write.
  - by rewrite pages_between_compose.
Qed.

Lemma split_pdf_of_split_pdf_home :
  (split_pdf (posix "/home/u") "part.pdf" 2 3 "inner.pdf"
     (split_pdf (posix "/home/u") "doc.pdf" 4 8 "part.pdf" home).1).2 = Ok tt ∧
  pdf_at (posix "/home/u")
    (fs (split_pdf (posix "/home/u") "part.pdf" 2 3 "inner.pdf"
           (split_pdf (posix "/home/u") "doc.pdf" 4 8 "part.pdf" home).1).1)
    "inner.pdf" ["p5"; "p6"].
Proof.
  apply (split_pdf_of_split_pdf (posix "/home/u") "doc.pdf" "part.pdf" "inner.pdf" home
           ["p1"; "p2"; "p3"; "p4"; "p5"; "p6"; "p7"; "p8"; "p9"; "p10"] 4 8 2 3).
  - reflexivity.
  - lia.
  - simpl; lia.
  - lia.
  - lia.
  - reflexivity.
  - vm_compute; discriminate.
  - reflexivity.
  - vm_compute; discriminate.
  - reflexivity.
  - reflexivity.
Defined.

(** ** Conversion *)

(** X11. On a source that opens, with the output directory present and the
    conversion going through, [pdf_to_docx] succeeds: the document written
    at the output path is the conversion of all the pages of the source,
    nothing else in the file system changes, and the converter is closed. *)
Theorem pdf_to_docx_converts_all_pages (P : platform) (input_file output_path : string)
    (w : world) (pages : list page) :
  pdf_at P (fs w) input_file pages →
  output_dir_exists P (fs w) output_path →
  not_a_directory P (fs w) output_path →
  convert_outcome P pages output_path = Completes →
  pdf_to_docx P input_file output_path w =
  (World (<[abspath P output_path := RegularFile (DocxData pages)]> (fs w))
         (heap w)
         (trace w ++ [QueryExists input_file; QueryIsDir (output_dir_of P output_path);
                      OpenFile input_file; WriteFile output_path]),
   Ok tt).
Proof.
  intros Hsrc Hdir Hnd Hconv.
  rewrite (pdf_to_docx_converts P _ _ _ pages) by done.
  cbv zeta. by rewrite convert_verdict_not_directory, Hconv.
Qed.

Lemma pdf_to_docx_converts_all_pages_home :
  pdf_to_docx (posix "/home/u") "A.pdf" "A.docx" home =
  (World (<["/home/u/A.docx" := RegularFile (DocxData ["a1"; "a2"; "a3"])]> (fs home))
         (heap home)
         (trace home ++ [QueryExists "A.pdf"; QueryIsDir "/home/u";
                         OpenFile "A.pdf"; WriteFile "A.docx"]),
   Ok tt).
Proof.
  apply (pdf_to_docx_converts_all_pages (posix "/home/u") "A.pdf" "A.docx" home
           ["a1"; "a2"; "a3"]).
  - reflexivity.
  - reflexivity.
  - vm_compute; discriminate.
  - reflexivity.
Defined.

(** * The pages of the window *)

Ltac unfold_g :=
  unfold release_locals, gui_try_except, getSaveFileName, getOpenFileNames,
    show_error_dialog, show_info_dialog, addStretch, mbind, G_bind, mret, G_ret,
    gui_raise, lift, show, addItem, addWidget, clear, clear_previews, render.

Ltac grun_step :=
  first
    [ progress cbn beta iota delta
        [gworld pdf_list preview_layout shown fs heap trace fst snd negb app]
    | run_step ].

Ltac grun := unfold_g; unfold_m; repeat grun_step.

Lemma get_all_paths_app (items more : list list_item) :
  get_all_paths (items ++ more) = get_all_paths items ++ get_all_paths more.
Proof.
  induction items as [|item items IH]; [done|]. cbn [app get_all_paths].
  destruct (item_data item) as [path|]; [|done].
  destruct (String.eqb path ""); [done|]. by rewrite IH.
Qed.

Lemma get_all_paths_added (items : list list_item) (icon : option string)
    (text path : string) :
  path ≠ "" →
  get_all_paths (items ++ [ListItem icon text (Some path)]) = get_all_paths items ++ [path].
Proof.
  intros Hne. rewrite get_all_paths_app. cbn [get_all_paths item_data].
  by rewrite (proj2 (String.eqb_neq path "")).
Qed.

(** ** Adding files to the list *)

(** The handles that were open before are all that is left when a method
    gives up a document it opened, and they are as they were. *)
Lemma held_before_id (hp : gmap nat resource) :
  filter (λ held, is_Some (hp !! held.1)) hp = hp.
Proof. apply map_filter_id. intros i x Hi. cbn. by eexists. Qed.

Lemma held_before_fresh (hp : gmap nat resource) (r : resource) :
  filter (λ held, is_Some (hp !! held.1)) (<[fresh (dom hp) := r]> hp) = hp.
Proof.
  rewrite map_filter_insert_False.
  - rewrite delete_id by apply fresh_handle_unused. apply held_before_id.
  - cbn. rewrite fresh_handle_unused. by intros [x Hx].
Qed.

(** What [add_pdf] does, by what the path holds: a PDF whose first page
    renders is added with its picture; a PDF without pages is not added; a
    PDF whose first page does not render, and anything else, is added
    without a picture.  No document is left open. *)
Lemma add_pdf_effect (P : platform) (T : toolkit) (file_path : string) (g : gui) :
  let text := basename T file_path +:+ newline +:+ file_path in
  let w := gworld g in
  let opened := World (fs w) (heap w) (trace w ++ [OpenFile file_path]) in
  add_pdf P T file_path g =
  match fs w !! abspath P file_path with
  | Some (RegularFile (PdfData [])) =>
      (Gui opened (pdf_list g) (preview_layout g) (shown g), Ok tt)
  | Some (RegularFile (PdfData (p :: rest))) =>
      match get_pixmap T 2 p with
      | inr picture =>
          (Gui opened (pdf_list g ++ [ListItem (Some picture) text (Some file_path)])
               (preview_layout g) (shown g), Ok tt)
      | inl _ =>
          (Gui opened (pdf_list g ++ [ListItem None text (Some file_path)])
               (preview_layout g) (shown g), Ok tt)
      end
  | _ =>
      (Gui opened (pdf_list g ++ [ListItem None text (Some file_path)])
           (preview_layout g) (shown g), Ok tt)
  end.
Proof.
  cbv zeta. destruct g as [[files hp tr] items prev dlg]. cbn [gworld fs heap trace].
  unfold add_pdf, doc_getitem.
  destruct (files !! abspath P file_path) as [[|[[|p rest]|d|b]]|] eqn:Hp.
  1,4,5,6: grun; by rewrite held_before_id.
  - grun. change (Z.of_nat (length (@nil page)) >? 0)%Z with false. grun.
    by rewrite held_before_id.
  - grun. rewrite (proj2 (Z.gtb_lt _ 0)) by (simpl length; lia). grun.
    change ((p :: rest) !! 0%nat) with (Some p). grun.
    destruct (get_pixmap T 2 p) as [exc|picture]; grun;
      by rewrite ?held_before_id, ?held_before_fresh.
Qed.

(** X12. [add_pdf] never raises and never asks or tells the user anything.
    It puts the path at the end of the list, so that [get_all_paths] grows
    by exactly that path, whether or not the file exists or opens, with one
    exception: a PDF that opens and has no pages is left out.  The file
    system is not changed. *)
Theorem add_pdf_lists_path (P : platform) (T : toolkit) (file_path : string) (g : gui) :
  file_path ≠ "" →
  (add_pdf P T file_path g).2 = Ok tt ∧
  get_all_paths (pdf_list (add_pdf P T file_path g).1) =
  get_all_paths (pdf_list g) ++
  (if decide (fs (gworld g) !! abspath P file_path = Some (RegularFile (PdfData [])))
   then [] else [file_path]) ∧
  fs (gworld (add_pdf P T file_path g).1) = fs (gworld g) ∧
  shown (add_pdf P T file_path g).1 = shown g.
Proof.
  intros Hne. rewrite add_pdf_effect. cbv zeta.
  destruct (fs (gworld g) !! abspath P file_path) as [[|[[|p rest]|d|b]]|] eqn:Hp;
    try destruct (get_pixmap T 2 p) as [exc|picture];
    cbn [fst snd gworld pdf_list shown fs];
    (case_decide as Hblank; [try discriminate Hblank|try done]);
    rewrite ?app_nil_r, ?get_all_paths_added by done; done.
Qed.

Lemma add_pdf_lists_path_home :
  (add_pdf (posix "/home/u") desk "missing.pdf" opened_window).2 = Ok tt ∧
  get_all_paths (pdf_list (add_pdf (posix "/home/u") desk "missing.pdf" opened_window).1) =
  get_all_paths (pdf_list opened_window) ++
  (if decide (fs (gworld opened_window) !! abspath (posix "/home/u") "missing.pdf" =
              Some (RegularFile (PdfData [])))
   then [] else ["missing.pdf"]) ∧
  fs (gworld (add_pdf (posix "/home/u") desk "missing.pdf" opened_window).1) =
  fs (gworld opened_window) ∧
  shown (add_pdf (posix "/home/u") desk "missing.pdf" opened_window).1 =
  shown opened_window.
Proof.
  apply (add_pdf_lists_path (posix "/home/u") desk "missing.pdf" opened_window).
  discriminate.
Defined.

(** A PDF without pages is not listed; a file that is not a PDF is. *)
Example add_pdf_blank_and_broken :
  get_all_paths (pdf_list (add_pdf (posix "/home/u") desk "blank.pdf" opened_window).1) =
  [] ∧
  get_all_paths (pdf_list (add_pdf (posix "/home/u") desk "broken.pdf" opened_window).1) =
  ["broken.pdf"].
Proof. split; by vm_compute. Qed.



Lemma add_pdf_lists_path_aux (P : platform) (T : toolkit) (file_path : string) (g : gui)
    (pages : list page) :
  file_path ≠ "" →
  pdf_at P (fs (gworld g)) file_path pages →
  pages ≠ [] →
  (add_pdf P T file_path g).2 = Ok tt ∧
  get_all_paths (pdf_list (add_pdf P T file_path g).1) =
  get_all_paths (pdf_list g) ++ [file_path] ∧
  fs (gworld (add_pdf P T file_path g).1) = fs (gworld g) ∧
  shown (add_pdf P T file_path g).1 = shown g.
Proof.
  unfold pdf_at. intros Hne Hp Hpages. rewrite add_pdf_effect. cbv zeta. rewrite Hp.
  destruct pages as [|p rest]; [done|].
  destruct (get_pixmap T 2 p) as [exc|picture];
    cbn [fst snd gworld pdf_list shown fs];
    by rewrite get_all_paths_added.
Qed.

(** Files that open and have pages are all listed, in the order given. *)
Lemma add_pdfs_lists_all (P : platform) (T : toolkit) (files : list string)
    (docs : list (list page)) :
  ∀ g : gui,
    Forall2 (pdf_at P (fs (gworld g))) files docs →
    Forall (λ d, d ≠ []) docs →
    Forall (λ path, path ≠ "") files →
    (add_pdfs P T files g).2 = Ok tt ∧
    get_all_paths (pdf_list (add_pdfs P T files g).1) =
    get_all_paths (pdf_list g) ++ files ∧
    fs (gworld (add_pdfs P T files g).1) = fs (gworld g) ∧
    shown (add_pdfs P T files g).1 = shown g.
Proof.
  intros g Hall. revert g Hall.
  induction files as [|path rest IH] in docs |- *; intros g Hall Hpages Hnames.
  - cbn. by rewrite app_nil_r.
  - destruct docs as [|d docs]; [by apply Forall2_cons_nil_inv in Hall|].
    apply Forall2_cons in Hall as [Hp Hall].
    apply Forall_cons in Hpages as [Hd Hpages].
    apply Forall_cons in Hnames as [Hpath Hnames].
    destruct (add_pdf_lists_path_aux P T path g d Hpath Hp Hd)
      as (Hok & Hpaths & Hfs & Hshown).
    cbn [add_pdfs]. unfold mbind, G_bind.
    destruct (add_pdf P T path g) as [g1 r1]. cbn [fst snd] in *. subst r1.
    destruct (IH docs g1) as (Hok' & Hpaths' & Hfs' & Hshown');
      [by rewrite Hfs|done..|].
    rewrite Hpaths', Hpaths, Hfs', Hfs, Hshown', Hshown, <- app_assoc. done.
Qed.

(** ** The three buttons *)

(** What [on_execute_merge] does once there are paths and an answer. *)
Lemma on_execute_merge_aux (P : platform) (answer : string) (g : gui)
    (paths : list string) :
  get_all_paths (pdf_list g) = paths → paths ≠ [] → answer ≠ "" →
  let ask := SaveFileName "Save merged PDF as..." "merged.pdf" "PDF files (*.pdf)" in
  (∀ w', merge_pdfs P paths answer (gworld g) = (w', Ok tt) →
     on_execute_merge P answer g =
     (Gui w' [] (preview_layout g)
          (shown g ++ [ask; Information "Success"
                              ("Merged PDF saved to:" +:+ newline +:+ answer)]),
      Ok tt)) ∧
  (∀ w' exc, merge_pdfs P paths answer (gworld g) = (w', Raise exc) →
     on_execute_merge P answer g =
     (Gui w' (pdf_list g) (preview_layout g)
          (shown g ++ [ask; Critical "Merge failed" (str exc)]),
      Ok tt)).
Proof.
  intros Hpaths Hne Hanswer. cbv zeta. unfold on_execute_merge. rewrite Hpaths.
  destruct paths as [|path rest]; [done|].
  split; intros; unfold_g; cbn [gworld pdf_list preview_layout shown];
    rewrite (proj2 (String.eqb_neq answer "")) by done;
    cbn [gworld pdf_list preview_layout shown];
    match goal with H : merge_pdfs _ _ _ _ = _ |- _ => rewrite H end;
    cbn [gworld pdf_list preview_layout shown fst snd];
    by rewrite <- app_assoc.
Qed.

(** X14. [on_execute_merge] never raises and ends in one of four ways.
    With no path in the list it shows "No files" and does nothing else: the
    engine is not called, so its own empty-list error never reaches the
    user.  With the save dialog cancelled it does nothing.  Otherwise it
    runs [merge_pdfs] on the listed paths, in their order: on success it
    shows "Success" and empties the list; on failure it keeps the list and
    shows "Merge failed" with a message that always reads "Failed to merge
    PDFs: .." followed by the message of the cause. *)
Theorem on_execute_merge_outcomes (P : platform) (answer : string) (g : gui) :
  let paths := get_all_paths (pdf_list g) in
  let ask := SaveFileName "Save merged PDF as..." "merged.pdf" "PDF files (*.pdf)" in
  let merged := merge_pdfs P paths answer (gworld g) in
  (paths = [] ∧
   on_execute_merge P answer g =
   (Gui (gworld g) (pdf_list g) (preview_layout g)
        (shown g ++ [Critical "No files" "Please add at least one PDF to merge."]),
    Ok tt)) ∨
  (paths ≠ [] ∧ answer = "" ∧
   on_execute_merge P answer g =
   (Gui (gworld g) (pdf_list g) (preview_layout g) (shown g ++ [ask]), Ok tt)) ∨
  (paths ≠ [] ∧ answer ≠ "" ∧ merged.2 = Ok tt ∧
   on_execute_merge P answer g =
   (Gui merged.1 [] (preview_layout g)
        (shown g ++ [ask; Information "Success"
                            ("Merged PDF saved to:" +:+ newline +:+ answer)]),
    Ok tt)) ∨
  (paths ≠ [] ∧ answer ≠ "" ∧
   ∃ cause,
     merged.2 = Raise (ExnFrom RuntimeError ("Failed to merge PDFs: " +:+ str cause)
                         cause) ∧
     on_execute_merge P answer g =
     (Gui merged.1 (pdf_list g) (preview_layout g)
          (shown g ++ [ask; Critical "Merge failed"
                              ("Failed to merge PDFs: " +:+ str cause)]),
      Ok tt)).
Proof.
  cbv zeta. unfold on_execute_merge.
  destruct (get_all_paths (pdf_list g)) as [|path rest] eqn:Hpaths.
  { left. split; [done|]. by grun. }
  right. destruct (String.eqb_spec answer "") as [->|Hanswer].
  { left. split; [done|]. split; [done|]. by grun. }
  right.
  destruct (on_execute_merge_aux P answer g (path :: rest) Hpaths) as [Hok Hbad];
    [done..|].
  unfold on_execute_merge in Hok, Hbad. rewrite Hpaths in Hok, Hbad.
  destruct (merge_pdfs_outcome P (path :: rest) answer (gworld g))
    as [(evs & exc & Hrun & _)|(evs & docs & _ & _ & _ & _ & Hrun)]; [done|..].
  - right. split; [done|]. split; [done|]. exists exc.
    rewrite (Hbad _ _ Hrun), Hrun. done.
  - destruct (write_effect P answer (PdfData (concat docs))
                (save_verdict P (fs (gworld g)) (concat docs) answer)
                (fs (gworld g))).2 as [[]|exc] eqn:Heff;
      cbn [wrapped] in Hrun.
    + left. split; [done|]. split; [done|].
      rewrite (Hok _ Hrun), Hrun. done.
    + right. split; [done|]. split; [done|]. exists exc.
      rewrite (Hbad _ _ Hrun), Hrun. done.
Qed.

(** X15. From an empty list, adding files that open and have pages and then
    merging to a path the engine can write gives, at that path, the pages
    of the files in the order they were added; the user sees the two file
    dialogs and "Success", and the list is empty again. *)
Theorem add_files_then_merge (P : platform) (T : toolkit) (files : list string)
    (docs : list (list page)) (output_path : string) (g : gui) :
  get_all_paths (pdf_list g) = [] →
  files ≠ [] →
  Forall (λ path, path ≠ "") files →
  Forall2 (pdf_at P (fs (gworld g))) files docs →
  Forall (λ d, d ≠ []) docs →
  output_path ≠ "" →
  output_dir_exists P (fs (gworld g)) output_path →
  not_a_directory P (fs (gworld g)) output_path →
  save_outcome P (concat docs) output_path = Completes →
  get_all_paths (pdf_list (on_add_files P T files g).1) = files ∧
  (on_execute_merge P output_path (on_add_files P T files g).1).2 = Ok tt ∧
  pdf_at P (fs (gworld (on_execute_merge P output_path (on_add_files P T files g).1).1))
    output_path (concat docs) ∧
  pdf_list (on_execute_merge P output_path (on_add_files P T files g).1).1 = [] ∧
  shown (on_execute_merge P output_path (on_add_files P T files g).1).1 =
  shown g ++
  [OpenFileNames "Select PDF files to merge" "" "PDF files (*.pdf)";
   SaveFileName "Save merged PDF as..." "merged.pdf" "PDF files (*.pdf)";
   Information "Success" ("Merged PDF saved to:" +:+ newline +:+ output_path)].
Proof.
  intros Hempty Hne Hnames Hall Hpages Hout Hdir Hnd Hsave.
  set (g0 := Gui (gworld g) (pdf_list g) (preview_layout g)
                 (shown g ++ [OpenFileNames "Select PDF files to merge" ""
                                "PDF files (*.pdf)"])).
  assert (on_add_files P T files g = add_pdfs P T files g0) as Hadd by done.
  destruct (add_pdfs_lists_all P T files docs g0 Hall Hpages Hnames)
    as (_ & Hpaths & Hfs & Hshown).
  rewrite Hadd. set (g1 := (add_pdfs P T files g0).1) in *.
  cbn [g0 pdf_list gworld shown] in Hpaths, Hfs, Hshown.
  rewrite Hempty in Hpaths. cbn [app] in Hpaths. split; [done|].
  assert (merge_pdfs P files output_path (gworld g1) =
          (World (<[abspath P output_path := RegularFile (PdfData (concat docs))]>
                    (fs (gworld g1)))
                 (heap (gworld g1))
                 (trace (gworld g1) ++ probes files ++
                  [QueryIsDir (output_dir_of P output_path); WriteFile output_path]),
           Ok tt)) as Hrun.
  { apply merge_pdfs_accepts; rewrite ?Hfs; done. }
  destruct (on_execute_merge_aux P output_path g1 files Hpaths Hne Hout) as [Hok Hbad].
  rewrite (Hok _ Hrun). cbn [fst snd gworld fs pdf_list shown].
  rewrite Hshown, <- app_assoc. repeat split. apply lookup_insert_eq.
Qed.

Lemma add_files_then_merge_home :
  get_all_paths
    (pdf_list (on_add_files (posix "/home/u") desk ["A.pdf"; "B.pdf"] opened_window).1) =
  ["A.pdf"; "B.pdf"] ∧
  (on_execute_merge (posix "/home/u") "out.pdf"
     (on_add_files (posix "/home/u") desk ["A.pdf"; "B.pdf"] opened_window).1).2 = Ok tt ∧
  pdf_at (posix "/home/u")
    (fs (gworld (on_execute_merge (posix "/home/u") "out.pdf"
                   (on_add_files (posix "/home/u") desk ["A.pdf"; "B.pdf"]
                      opened_window).1).1))
    "out.pdf" (concat [["a1"; "a2"; "a3"]; ["b1"; "b2"]]) ∧
  pdf_list (on_execute_merge (posix "/home/u") "out.pdf"
              (on_add_files (posix "/home/u") desk ["A.pdf"; "B.pdf"]
                 opened_window).1).1 = [] ∧
  shown (on_execute_merge (posix "/home/u") "out.pdf"
           (on_add_files (posix "/home/u") desk ["A.pdf"; "B.pdf"] opened_window).1).1 =
  shown opened_window ++
  [OpenFileNames "Select PDF files to merge" "" "PDF files (*.pdf)";
   SaveFileName "Save merged PDF as..." "merged.pdf" "PDF files (*.pdf)";
   Information "Success" ("Merged PDF saved to:" +:+ newline +:+ "out.pdf")].
Proof.
  apply (add_files_then_merge (posix "/home/u") desk ["A.pdf"; "B.pdf"]
           [["a1"; "a2"; "a3"]; ["b1"; "b2"]] "out.pdf" opened_window).
  - reflexivity.
  - discriminate.
  - repeat constructor; discriminate.
  - repeat constructor.
  - repeat constructor; discriminate.
  - discriminate.
  - reflexivity.
  - vm_compute; discriminate.
  - reflexivity.
Defined.

(** A directory in the list: it is listed without a picture, the merge
    fails at it, and the list is kept. *)
Example on_execute_merge_directory_listed :
  on_execute_merge (posix "/home/u") "out.pdf"
    (on_add_files (posix "/home/u") desk ["A.pdf"; "archive"] opened_window).1 =
  (Gui (World (fs home) (heap home)
              [OpenFile "A.pdf"; OpenFile "archive";
               QueryExists "A.pdf"; OpenFile "A.pdf";
               QueryExists "archive"; OpenFile "archive"])
       [ListItem (Some "picture of a1") ("A.pdf" +:+ newline +:+ "A.pdf") (Some "A.pdf");
        ListItem None ("archive" +:+ newline +:+ "archive") (Some "archive")]
       []
       [OpenFileNames "Select PDF files to merge" "" "PDF files (*.pdf)";
        SaveFileName "Save merged PDF as..." "merged.pdf" "PDF files (*.pdf)";
        Critical "Merge failed" "Failed to merge PDFs: 'archive' is no file"],
   Ok tt).
Proof. by vm_compute. Qed.

(** What a failure of [split_pdf] or [pdf_to_docx] reads like. *)
Lemma split_pdf_failure_message (P : platform) (input_file : string)
    (start_page end_page : Z) (output_path : string) (w : world) (exc : exn) :
  (split_pdf P input_file start_page end_page output_path w).2 = Raise exc →
  str exc = "Source file not found: " +:+ input_file ∨
  ∃ cause, str exc = "Failed to split PDF: " +:+ str cause.
Proof.
  destruct (fs w !! abspath P input_file) as [n|] eqn:Hsrc.
  - destruct (pdf_or_not n) as [[pages ->]|Hnot].
    + rewrite (split_pdf_on_pdf P _ _ _ _ _ pages) by done.
      destruct (validate_page_range _ _ _ w).2 as [[]|cause].
      * cbv zeta. case_decide; cbn [snd wrapped].
        -- destruct (write_effect _ _ _ _ _).2 as [[]|cause]; cbn [wrapped];
             intros [= <-]. right. by exists cause.
        -- intros [= <-]. right.
           by exists (Exn FileNotFoundError
                        ("Output directory does not exist: " +:+
                         output_dir_of P output_path)).
      * intros [= <-]. right. by exists cause.
    + destruct (split_pdf_source_unreadable P input_file start_page end_page
                  output_path w n Hsrc) as [cause ->]; [done|].
      intros [= <-]. right. by exists cause.
  - rewrite split_pdf_source_missing by done. intros [= <-]. by left.
Qed.

Lemma pdf_to_docx_failure_message (P : platform) (input_file output_path : string)
    (w : world) (exc : exn) :
  (pdf_to_docx P input_file output_path w).2 = Raise exc →
  str exc = "Source file not found: " +:+ input_file ∨
  ∃ cause, str exc = "Failed to convert PDF to DOCX: " +:+ str cause.
Proof.
  destruct (fs w !! abspath P input_file) as [n|] eqn:Hsrc.
  - destruct (decide (output_dir_exists P (fs w) output_path)) as [Hdir|Hdir].
    + destruct (pdf_or_not n) as [[pages ->]|Hnot].
      * rewrite (pdf_to_docx_converts P _ _ _ pages) by done. cbv zeta.
        destruct (write_effect _ _ _ _ _).2 as [[]|cause]; cbn [snd wrapped];
          intros [= <-]. right. by exists cause.
      * destruct (pdf_to_docx_source_unreadable P input_file output_path w n Hsrc)
          as [cause ->]; [done..|].
        intros [= <-]. right. by exists cause.
    + rewrite (pdf_to_docx_no_output_dir P _ _ _ n) by done.
      intros [= <-]. right.
           by exists (Exn FileNotFoundError
                        ("Output directory does not exist: " +:+
                         output_dir_of P output_path)).
  - rewrite pdf_to_docx_source_missing by done. intros [= <-]. by left.
Qed.

(** X16. [on_execute_split] never raises.  Without a source it shows "No
    source file"; when either field is not a number it shows "Invalid
    input"; in both cases, and when the save dialog is cancelled, the engine
    is not called and the world is as it was.  Otherwise it calls
    [split_pdf] with the two numbers as typed, whatever they are: on
    success it shows "Success"; on failure it shows "Split failed" with the
    message of the exception, which reads "Source file not found: .." or
    "Failed to split PDF: ..". *)
Theorem on_execute_split_outcomes (P : platform) (T : toolkit)
    (source_path : option string) (start_text end_text answer : string) (g : gui) :
  let ask := SaveFileName "Save split PDF as..." "split.pdf" "PDF files (*.pdf)" in
  let tell d := (Gui (gworld g) (pdf_list g) (preview_layout g) (shown g ++ [d]), Ok tt) in
  ((source_path = None ∨ source_path = Some "") ∧
   on_execute_split P T source_path start_text end_text answer g =
   tell (Critical "No source file" "Please select a PDF to split.")) ∨
  (∃ source,
     source_path = Some source ∧ source ≠ "" ∧
     ((int_of_text T start_text = None ∨ int_of_text T end_text = None) ∧
      on_execute_split P T source_path start_text end_text answer g =
      tell (Critical "Invalid input" "Start and end pages must be numbers.") ∨
      ∃ start_page end_page,
        int_of_text T start_text = Some start_page ∧
        int_of_text T end_text = Some end_page ∧
        (answer = "" ∧
         on_execute_split P T source_path start_text end_text answer g = tell ask ∨
         answer ≠ "" ∧
         ∃ w' r,
           split_pdf P source start_page end_page answer (gworld g) = (w', r) ∧
           ∃ told,
             on_execute_split P T source_path start_text end_text answer g =
             (Gui w' (pdf_list g) (preview_layout g) (shown g ++ [ask; told]), Ok tt) ∧
             match r with
             | Ok _ =>
                 told = Information "Success"
                          ("Split PDF saved to:" +:+ newline +:+ answer)
             | Raise exc =>
                 told = Critical "Split failed" (str exc) ∧
                 (str exc = "Source file not found: " +:+ source ∨
                  ∃ cause, str exc = "Failed to split PDF: " +:+ str cause)
             end))).
Proof.
  cbv zeta. unfold on_execute_split.
  destruct source_path as [source|]; [|left; split; [by left|by grun]].
  destruct (String.eqb_spec source "") as [->|Hsource];
    [left; split; [by right|by grun]|].
  right. exists source. split; [done|]. split; [done|].
  destruct (int_of_text T start_text) as [start_page|];
    [|left; split; [by left|by grun]].
  destruct (int_of_text T end_text) as [end_page|];
    [|left; split; [by right|by grun]].
  right. exists start_page, end_page. split; [done|]. split; [done|].
  destruct (String.eqb_spec answer "") as [->|Hanswer];
    [left; split; [done|by grun]|].
  right. split; [done|].
  destruct (split_pdf P source start_page end_page answer (gworld g)) as [w' r] eqn:Hrun.
  exists w', r. split; [done|].
  pose proof (split_pdf_failure_message P source start_page end_page answer (gworld g))
    as Hmsg.
  rewrite Hrun in Hmsg. cbn [snd] in Hmsg.
  destruct r as [[]|exc]; eexists;
    (split; [|first [reflexivity | split; [reflexivity|by apply Hmsg]]]);
    unfold_g; cbn [gworld pdf_list preview_layout shown];
    rewrite (proj2 (String.eqb_neq answer "")) by done;
    cbn [gworld pdf_list preview_layout shown]; rewrite Hrun;
    cbn [gworld pdf_list preview_layout shown fst snd];
    by rewrite <- app_assoc.
Qed.

(** X17. [on_execute_convert] never raises.  Without a source it shows "No
    source file"; when the save dialog is cancelled it does nothing; in
    both cases the engine is not called.  Otherwise it calls [pdf_to_docx]:
    on success it shows "Success"; on failure it shows "Conversion failed"
    with the message of the exception, which reads "Source file not found:
    .." or "Failed to convert PDF to DOCX: ..". *)
Theorem on_execute_convert_outcomes (P : platform) (source_path : option string)
    (answer : string) (g : gui) :
  let ask := SaveFileName "Save DOCX as..." "output.docx" "Word files (*.docx)" in
  let tell d := (Gui (gworld g) (pdf_list g) (preview_layout g) (shown g ++ [d]), Ok tt) in
  ((source_path = None ∨ source_path = Some "") ∧
   on_execute_convert P source_path answer g =
   tell (Critical "No source file" "Please select a PDF to convert.")) ∨
  (∃ source,
     source_path = Some source ∧ source ≠ "" ∧
     (answer = "" ∧ on_execute_convert P source_path answer g = tell ask ∨
      answer ≠ "" ∧
      ∃ w' r,
        pdf_to_docx P source answer (gworld g) = (w', r) ∧
        ∃ told,
          on_execute_convert P source_path answer g =
          (Gui w' (pdf_list g) (preview_layout g) (shown g ++ [ask; told]), Ok tt) ∧
          match r with
          | Ok _ =>
              told = Information "Success"
                       ("DOCX file saved to:" +:+ newline +:+ answer)
          | Raise exc =>
              told = Critical "Conversion failed" (str exc) ∧
              (str exc = "Source file not found: " +:+ source ∨
               ∃ cause, str exc = "Failed to convert PDF to DOCX: " +:+ str cause)
          end)).
Proof.
  cbv zeta. unfold on_execute_convert.
  destruct source_path as [source|]; [|left; split; [by left|by grun]].
  destruct (String.eqb_spec source "") as [->|Hsource];
    [left; split; [by right|by grun]|].
  right. exists source. split; [done|]. split; [done|].
  destruct (String.eqb_spec answer "") as [->|Hanswer];
    [left; split; [done|by grun]|].
  right. split; [done|].
  destruct (pdf_to_docx P source answer (gworld g)) as [w' r] eqn:Hrun.
  exists w', r. split; [done|].
  pose proof (pdf_to_docx_failure_message P source answer (gworld g)) as Hmsg.
  rewrite Hrun in Hmsg. cbn [snd] in Hmsg.
  destruct r as [[]|exc]; eexists;
    (split; [|first [reflexivity | split; [reflexivity|by apply Hmsg]]]);
    unfold_g; cbn [gworld pdf_list preview_layout shown];
    rewrite (proj2 (String.eqb_neq answer "")) by done;
    cbn [gworld pdf_list preview_layout shown]; rewrite Hrun;
    cbn [gworld pdf_list preview_layout shown fst snd];
    by rewrite <- app_assoc.
Qed.

(** What is typed goes to the engine as it is: blanks around a number are
    dropped, a range outside the document comes back as the engine's
    message, and text that is no number stops before the save dialog. *)
Example on_execute_split_typed :
  shown (on_execute_split (posix "/home/u") desk (Some "doc.pdf") " 2 " "4" "part.pdf"
           opened_window).1 =
  [SaveFileName "Save split PDF as..." "split.pdf" "PDF files (*.pdf)";
   Information "Success" ("Split PDF saved to:" +:+ newline +:+ "part.pdf")] ∧
  pdf_at (posix "/home/u")
    (fs (gworld (on_execute_split (posix "/home/u") desk (Some "doc.pdf") " 2 " "4"
                   "part.pdf" opened_window).1))
    "part.pdf" ["p2"; "p3"; "p4"] ∧
  shown (on_execute_split (posix "/home/u") desk (Some "doc.pdf") "0" "-1" "part.pdf"
           opened_window).1 =
  [SaveFileName "Save split PDF as..." "split.pdf" "PDF files (*.pdf)";
   Critical "Split failed" "Failed to split PDF: Page numbers must be >= 1."] ∧
  on_execute_split (posix "/home/u") desk (Some "doc.pdf") "two" "4" "part.pdf"
    opened_window =
  (Gui home [] [] [Critical "Invalid input" "Start and end pages must be numbers."],
   Ok tt).
Proof. repeat split; by vm_compute. Qed.

(** ** The preview of the split page *)

Lemma drop_cons_inv {A} (l : list A) (n : nat) (x : A) (tl : list A) :
  drop n l = x :: tl → l !! n = Some x ∧ drop (S n) l = tl.
Proof.
  intros Hdrop. split.
  - rewrite <- (Nat.add_0_r n), <- lookup_drop. by rewrite Hdrop.
  - change (S n) with (1 + n)%nat. rewrite Nat.add_comm, <- drop_drop. by rewrite Hdrop.
Qed.

(** The loop over the page numbers, when every page renders. *)
Lemma preview_pages_run (T : toolkit) (doc : nat) (pages : list page)
    (pictures : list string) :
  ∀ (start : nat) (g : gui),
    heap (gworld g) !! doc = Some (Document pages) →
    Forall2 (λ p picture, get_pixmap T 3 p = inr picture)
            (take (length pictures) (drop start pages)) pictures →
    preview_pages T doc (seq start (length pictures)) g =
    (Gui (gworld g) (pdf_list g)
         (preview_layout g ++
          imap (λ i picture,
                  PagePreview picture ("Page " +:+ pretty (start + i + 1)%nat))
               pictures)
         (shown g),
     Ok tt).
Proof.
  induction pictures as [|picture rest IH]; intros start g Hdoc Hall.
  - cbn. rewrite app_nil_r. by destruct g.
  - cbn [length] in Hall. destruct (drop start pages) as [|p tl] eqn:Hdrop;
      [by apply Forall2_nil_cons_inv in Hall|].
    cbn [take] in Hall. apply Forall2_cons in Hall as [Hp Hall].
    apply drop_cons_inv in Hdrop as [Hlook Hdrop]. rewrite <- Hdrop in Hall.
    cbn [length seq preview_pages]. unfold doc_getitem.
    destruct g as [w items prev dlg]. cbn [gworld] in Hdoc.
    grun. rewrite Hp. grun.
    rewrite (IH (S start) (Gui w items _ dlg)) by done.
    cbn [gworld pdf_list preview_layout shown]. rewrite <- app_assoc. cbn [app imap].
    rewrite Nat.add_0_r. do 4 f_equal.
    apply imap_ext. intros i x _. cbn. do 3 f_equal. lia.
Qed.

(** X18. On a PDF that opens and whose first pages render, [_load_preview]
    replaces whatever previews were there by the pictures of the first
    min(10, page count) pages, in order, labelled "Page 1", "Page 2", ..,
    followed by the stretch; it shows no dialog and closes the document. *)
Theorem load_preview_first_pages (P : platform) (T : toolkit) (pdf_path : string)
    (g : gui) (pages : list page) (pictures : list string) :
  pdf_at P (fs (gworld g)) pdf_path pages →
  Forall2 (λ p picture, get_pixmap T 3 p = inr picture) (take 10 pages) pictures →
  _load_preview P T pdf_path g =
  (Gui (World (fs (gworld g)) (heap (gworld g))
              (trace (gworld g) ++ [OpenFile pdf_path]))
       (pdf_list g)
       (imap (λ i picture, PagePreview picture ("Page " +:+ pretty (i + 1)%nat))
             pictures ++ [Stretch])
       (shown g),
   Ok tt) ∧
  length pictures = Nat.min 10 (length pages).
Proof.
  unfold pdf_at. intros Hsrc Hall.
  assert (length pictures = Nat.min 10 (length pages)) as Hlen.
  { apply Forall2_length in Hall. by rewrite length_take in Hall. }
  split; [|done].
  destruct g as [[files hp tr] items prev dlg]. cbn [gworld fs heap trace] in *.
  unfold _load_preview. grun.
  replace (Z.to_nat (Z.min 10 (Z.of_nat (length pages)))) with (length pictures)
    by lia.
  rewrite (preview_pages_run T (fresh (dom hp)) pages pictures 0).
  - grun. rewrite held_before_id. settle.
  - apply lookup_insert_eq.
  - rewrite drop_0, Hlen. destruct (decide (10 ≤ length pages)%nat).
    + by rewrite Nat.min_l.
    + rewrite Nat.min_r by lia. by rewrite !take_ge in Hall |- * by lia.
Qed.

Lemma load_preview_first_pages_long :
  _load_preview (posix "/home/u") desk "long.pdf" long_window =
  (Gui (World (fs (gworld long_window)) (heap (gworld long_window))
              (trace (gworld long_window) ++ [OpenFile "long.pdf"]))
       (pdf_list long_window)
       (imap (λ i picture, PagePreview picture ("Page " +:+ pretty (i + 1)%nat))
             ["picture of 1"; "picture of 2"; "picture of 3"; "picture of 4";
              "picture of 5"; "picture of 6"; "picture of 7"; "picture of 8";
              "picture of 9"; "picture of 10"] ++ [Stretch])
       (shown long_window),
   Ok tt) ∧
  length ["picture of 1"; "picture of 2"; "picture of 3"; "picture of 4";
          "picture of 5"; "picture of 6"; "picture of 7"; "picture of 8";
          "picture of 9"; "picture of 10"] =
  Nat.min 10 (length ["1"; "2"; "3"; "4"; "5"; "6"; "7"; "8"; "9"; "10"; "11"; "12"]).
Proof.
  apply (load_preview_first_pages (posix "/home/u") desk "long.pdf" long_window
           ["1"; "2"; "3"; "4"; "5"; "6"; "7"; "8"; "9"; "10"; "11"; "12"]).
  - reflexivity.
  - repeat constructor.
Defined.

(** ** Files dropped on the list *)

Lemma endswith_pdf_nonempty (file_path : string) :
  endswith (lower file_path) ".pdf" = true → file_path ≠ "".
Proof. by intros Hends ->. Qed.

(** The paths listed after [add_pdf], whatever the file is. *)
Lemma add_pdf_summary (P : platform) (T : toolkit) (file_path : string) (g : gui) :
  file_path ≠ "" →
  (add_pdf P T file_path g).2 = Ok tt ∧
  get_all_paths (pdf_list (add_pdf P T file_path g).1) =
  get_all_paths (pdf_list g) ++
  (if decide (fs (gworld g) !! abspath P file_path ≠ Some (RegularFile (PdfData [])))
   then [file_path] else []) ∧
  fs (gworld (add_pdf P T file_path g).1) = fs (gworld g) ∧
  shown (add_pdf P T file_path g).1 = shown g.
Proof.
  intros Hne. rewrite add_pdf_effect. cbv zeta.
  destruct (fs (gworld g) !! abspath P file_path) as [[|[[|p rest]|d|b]]|] eqn:Hp;
    try destruct (get_pixmap T 2 p) as [exc|picture];
    cbn [fst snd gworld pdf_list shown fs];
    (case_decide as Hblank; [|try (by destruct Hblank)]);
    rewrite ?app_nil_r, ?get_all_paths_added by done; done.
Qed.

(** X19. An external drop adds to the list exactly the dropped files whose
    name ends in ".pdf", in any mix of upper and lower case, in the order
    dropped and after the items already there (a PDF that opens without
    pages is left out, as [add_pdf] does); other files are skipped without
    a word, the event is accepted, no dialog is shown and the file system
    is not changed. *)
Theorem dropEvent_adds_pdf_names (P : platform) (T : toolkit) (event : drop_event)
    (g : gui) :
  has_urls event = true →
  (dropEvent P T event g).2 = Ok AcceptProposedAction ∧
  get_all_paths (pdf_list (dropEvent P T event g).1) =
  get_all_paths (pdf_list g) ++
  filter (λ file_path,
            endswith (lower file_path) ".pdf" = true ∧
            fs (gworld g) !! abspath P file_path ≠ Some (RegularFile (PdfData [])))
         (local_files event) ∧
  fs (gworld (dropEvent P T event g).1) = fs (gworld g) ∧
  shown (dropEvent P T event g).1 = shown g.
Proof.
  intros Hurls. unfold dropEvent. rewrite Hurls.
  assert (∀ files g0,
            (add_dropped P T files g0).2 = Ok tt ∧
            get_all_paths (pdf_list (add_dropped P T files g0).1) =
            get_all_paths (pdf_list g0) ++
            filter (λ file_path,
                      endswith (lower file_path) ".pdf" = true ∧
                      fs (gworld g0) !! abspath P file_path ≠
                      Some (RegularFile (PdfData [])))
                   files ∧
            fs (gworld (add_dropped P T files g0).1) = fs (gworld g0) ∧
            shown (add_dropped P T files g0).1 = shown g0) as Hloop.
  { induction files as [|file_path rest IH]; intros g0.
    - cbn. by rewrite app_nil_r.
    - cbn [add_dropped]. unfold mbind, G_bind.
      destruct (endswith (lower file_path) ".pdf") eqn:Hends.
      + destruct (add_pdf_summary P T file_path g0) as (Hok & Hpaths & Hfs & Hshown);
          [by apply endswith_pdf_nonempty|].
        destruct (add_pdf P T file_path g0) as [g1 r1]. cbn [fst snd] in *. subst r1.
        destruct (IH g1) as (Hok' & Hpaths' & Hfs' & Hshown').
        rewrite Hok', Hpaths', Hpaths, Hfs', Hfs, Hshown', Hshown, <- app_assoc.
        repeat split. f_equal. rewrite filter_cons.
        case_decide as Hblank; case_decide as Hkeep; try done.
        * destruct Hkeep. by split.
        * destruct Hkeep as [_ Hkeep]. done.
      + unfold mret, G_ret. destruct (IH g0) as (Hok' & Hpaths' & Hfs' & Hshown').
        rewrite Hok', Hpaths', Hfs', Hshown'. repeat split. f_equal.
        rewrite filter_cons. case_decide as Hkeep; [|done].
        destruct Hkeep as [Hkeep _]. by rewrite Hends in Hkeep. }
  unfold mbind, G_bind. destruct (Hloop (local_files event) g) as (Hok & Hpaths & Hfs & Hs).
  destruct (add_dropped P T (local_files event) g) as [g1 r1]. cbn [fst snd] in *.
  by subst r1.
Qed.

Lemma dropEvent_adds_pdf_names_home :
  (dropEvent (posix "/home/u") desk
     (DropEvent true ["A.pdf"; "notes.txt"; "B.PDF"; "blank.pdf"; ""] false)
     opened_window).2 = Ok AcceptProposedAction ∧
  get_all_paths
    (pdf_list (dropEvent (posix "/home/u") desk
                 (DropEvent true ["A.pdf"; "notes.txt"; "B.PDF"; "blank.pdf"; ""] false)
                 opened_window).1) =
  get_all_paths (pdf_list opened_window) ++
  filter (λ file_path,
            endswith (lower file_path) ".pdf" = true ∧
            fs (gworld opened_window) !! abspath (posix "/home/u") file_path ≠
            Some (RegularFile (PdfData [])))
         (local_files (DropEvent true ["A.pdf"; "notes.txt"; "B.PDF"; "blank.pdf"; ""]
                         false)) ∧
  fs (gworld (dropEvent (posix "/home/u") desk
                (DropEvent true ["A.pdf"; "notes.txt"; "B.PDF"; "blank.pdf"; ""] false)
                opened_window).1) = fs (gworld opened_window) ∧
  shown (dropEvent (posix "/home/u") desk
           (DropEvent true ["A.pdf"; "notes.txt"; "B.PDF"; "blank.pdf"; ""] false)
           opened_window).1 = shown opened_window.
Proof.
  apply (dropEvent_adds_pdf_names (posix "/home/u") desk
           (DropEvent true ["A.pdf"; "notes.txt"; "B.PDF"; "blank.pdf"; ""] false)
           opened_window).
  reflexivity.
Defined.

(** Of five dropped files, the two whose name ends in ".pdf" and that are
    not a PDF without pages are listed. *)
Example dropEvent_five_files :
  get_all_paths
    (pdf_list (dropEvent (posix "/home/u") desk
                 (DropEvent true ["A.pdf"; "notes.txt"; "B.PDF"; "blank.pdf"; ""] false)
                 opened_window).1) =
  ["A.pdf"; "B.PDF"].
Proof. by vm_compute. Qed.
